(** * The client-side CRUD controller of the users example

    A shallow embedding of the two front ends of the repository:

    - frontend/src/api/users.ts and frontend/src/App.tsx (browser),
    - mobile/src/api/users.ts and mobile/app/index.tsx (React Native),

    together with the parts of UserForm.tsx and UserList.tsx that decide
    which handler a control forwards an intent to.

    A handler is an async function that reads the values captured by the
    render that created it and queues state updates through React's
    setters.  It is embedded as a value of a small writer and exception
    monad: the list of effects it performs, in order, and the way its
    promise settles.  The state of the component after the handler is the
    queued updates applied, in order, to the state it started from. *)

From Stdlib Require Import ZArith NArith List String Ascii Bool Lia DecimalString.
Import ListNotations.
Open Scope Z_scope.

(* ================================================================== *)
(** * JavaScript values *)
(* ================================================================== *)

(** A JavaScript string is a sequence of UTF-16 code units. *)
Definition jsstring : Type := list N.

(** A literal of the source (ASCII only). *)
Definition js (s : string) : jsstring :=
  map N_of_ascii (list_ascii_of_string s).

(** ECMAScript WhiteSpace and LineTerminator code points, the ones
    String.prototype.trim strips. *)
Definition isWhiteSpace (c : N) : bool :=
  match c with
  | 9 | 10 | 11 | 12 | 13 | 32 | 160 => true
  | 5760 => true                                   (* U+1680 *)
  | 8232 | 8233 | 8239 | 8287 => true              (* U+2028 U+2029 U+202F U+205F *)
  | 12288 | 65279 => true                          (* U+3000 U+FEFF *)
  | _ => (8192 <=? c) && (c <=? 8202)              (* U+2000 .. U+200A *)
  end%N.

Fixpoint trimStart (s : jsstring) : jsstring :=
  match s with
  | [] => []
  | c :: r => if isWhiteSpace c then trimStart r else s
  end.

Definition trimEnd (s : jsstring) : jsstring := rev (trimStart (rev s)).

(** [s.trim()] *)
Definition trim (s : jsstring) : jsstring := trimEnd (trimStart s).

(** [!s] on a string: only the empty string is falsy. *)
Definition not_str (s : jsstring) : bool :=
  match s with [] => true | _ :: _ => false end.

(** An identifier is the integer the backend wrote into its JSON answer;
    the JavaScript number that [JSON.parse] makes of it is the Number
    nearest to that integer.  [MAX_SAFE_INTEGER] is 2^53 - 1: up to it
    every integer is a Number of its own. *)
Definition MAX_SAFE_INTEGER : Z := 9007199254740991.

(** The Number nearest to the positive integer [n], as the integer it is
    equal to: [n] rounded to 53 significant bits, ties to even; [None]
    when the result is Infinity. *)
Definition nearest_Number (n : Z) : option Z :=
  let bits := Z.log2 n + 1 in
  if bits <=? 53 then Some n
  else
    let e := bits - 53 in
    let q := n / 2 ^ e in
    let r := n mod 2 ^ e in
    let half := 2 ^ (e - 1) in
    let m := if r <? half then q
             else if half <? r then q + 1
             else if Z.even q then q else q + 1 in
    let x := m * 2 ^ e in
    if 2 ^ 1024 <=? x then None else Some x.

(** The number of decimal digits of a positive integer. *)
Definition digits (n : Z) : Z :=
  Z.of_nat (String.length (NilZero.string_of_int (Z.to_int n))).

(** The integer with [k] significant digits (followed by zeros) that the
    Number [x] is the nearest Number to, if there is one; the one closer
    to [x] when there are two, the one with an even last digit when
    they are as close. *)
Definition shortest_at (x k : Z) : option Z :=
  let p := 10 ^ (digits x - k) in
  let lo := (x / p) * p in
  let hi := lo + p in
  let reads_as_x v :=
      match nearest_Number v with
      | Some y => y =? x
      | None => false
      end in
  match reads_as_x lo, reads_as_x hi with
  | true, true =>
      Some (if x - lo <? hi - x then lo
            else if hi - x <? x - lo then hi
            else if Z.even (lo / p) then lo else hi)
  | true, false => Some lo
  | false, true => Some hi
  | false, false => None
  end.

(** Number::toString, step 5: the digits of the shortest decimal that
    reads back as [x], tried from [k] significant digits on. *)
Fixpoint shortest (fuel : nat) (x k : Z) : Z :=
  match fuel with
  | O => x
  | S fuel' =>
      if digits x <=? k then x
      else match shortest_at x k with
           | Some v => v
           | None => shortest fuel' x (k + 1)
           end
  end.

Fixpoint strip_trailing_zeros (s : string) : string :=
  match s with
  | EmptyString => EmptyString
  | String a r =>
      match strip_trailing_zeros r with
      | EmptyString => if Ascii.eqb a "0" then EmptyString else String a EmptyString
      | r' => String a r'
      end
  end.

(** Number::toString, steps 7 and 10, for a positive integer given by
    its shortest decimal [v]: plain digits below 10^21, and from there
    on one digit, the other significant digits after a point, and the
    exponent. *)
Definition format_Number (v : Z) : string :=
  let ds := NilZero.string_of_int (Z.to_int v) in
  let n := String.length ds in
  if (n <=? 21)%nat then ds
  else
    match strip_trailing_zeros ds with
    | EmptyString => ds
    | String d rest =>
        String d (match rest with
                  | EmptyString => EmptyString
                  | _ => String "." rest
                  end)
        ++ "e+" ++ NilZero.string_of_int (Z.to_int (Z.of_nat n - 1))
    end.

(** [`${id}`]: Number::toString of the Number the identifier is held
    as.  A safe integer is its own Number and its shortest decimal is
    the integer written out. *)
Definition number_toString (n : Z) : jsstring :=
  if Z.abs n <=? MAX_SAFE_INTEGER
  then js (NilZero.string_of_int (Z.to_int n))
  else
    match nearest_Number (Z.abs n) with
    | None => js (if n <? 0 then "-Infinity" else "Infinity")
    | Some x =>
        js ((if n <? 0 then "-" else "") ++ format_Number (shortest 17 x 1))
    end.
Arguments number_toString : simpl never.

(** [!n] on [number | null]: null and zero are falsy. *)
Definition truthy (n : option Z) : bool :=
  match n with
  | None => false
  | Some z => negb (z =? 0)
  end.

(** What a [catch] clause can receive: an [Error] object (with its
    [message]) or any other thrown value. *)
Inductive Thrown : Type :=
| ErrorObj (message : jsstring)
| NonError.

(** [err instanceof Error ? err.message : fallback] *)
Definition message_or (err : Thrown) (fallback : jsstring) : jsstring :=
  match err with
  | ErrorObj m => m
  | NonError => fallback
  end.

(** How a promise (or a block of statements) settles. *)
Inductive Outcome (A : Type) : Type :=
| Resolved (a : A)
| Rejected (err : Thrown).
Arguments Resolved {A} a.
Arguments Rejected {A} err.

(* ================================================================== *)
(** * types.ts *)
(* ================================================================== *)

Module User.
Record t : Type := mk { id : Z; name : jsstring; email : jsstring }.
End User.

Module UserCreate.
Record t : Type := mk { name : jsstring; email : jsstring }.
End UserCreate.

Abbreviation User := User.t.
Abbreviation UserCreate := UserCreate.t.

(* ================================================================== *)
(** * Async computations *)
(* ================================================================== *)

(** The effects performed, oldest first, and the way the computation
    settles.  [E] is the type of effects. *)
Definition Async (E A : Type) : Type := (list E * Outcome A)%type.

Section AsyncOps.
Context {E : Type}.

Definition ret {A} (a : A) : Async E A := ([], Resolved a).

Definition throw {A} (err : Thrown) : Async E A := ([], Rejected err).

Definition emit (e : E) : Async E unit := ([e], Resolved tt).

Definition bind {A B} (m : Async E A) (k : A -> Async E B) : Async E B :=
  match m with
  | (t, Resolved a) => let (t', r) := k a in (t ++ t', r)
  | (t, Rejected err) => (t, Rejected err)
  end.

(** [try { body } catch (err) { handler } finally { fin }] *)
Definition try_catch_finally {A} (body : Async E A)
    (handler : Thrown -> Async E A) (fin : Async E unit) : Async E A :=
  let (t1, r1) := body in
  let (t2, r2) := match r1 with
                  | Resolved a => ([], Resolved a)
                  | Rejected err => handler err
                  end in
  let (t3, r3) := fin in
  (t1 ++ t2 ++ t3,
   match r3 with
   | Resolved _ => r2
   | Rejected err => Rejected err
   end).
End AsyncOps.

Definition effects {E A} (m : Async E A) : list E := fst m.
Definition settled {E A} (m : Async E A) : Outcome A := snd m.

(** Run a computation over effects [E] inside one over effects [F]. *)
Definition lift {E F A} (f : E -> F) (m : Async E A) : Async F A :=
  (map f (fst m), snd m).

Declare Scope async_scope.
Delimit Scope async_scope with async.
Notation "x <- c ;; k" := (bind c (fun x => k))
  (at level 61, c at next level, right associativity) : async_scope.
Notation "c ;; k" := (bind c (fun _ => k))
  (at level 61, right associativity) : async_scope.
Open Scope async_scope.

(* ================================================================== *)
(** * The world outside the component *)
(* ================================================================== *)

Inductive Method : Type := GET | POST | PUT | DELETE.

(** The arguments of one [fetch] call.  The body is [JSON.stringify(user)],
    kept structured. *)
Record Request : Type := mkRequest {
  url : jsstring;
  method : Method;
  headers : list (jsstring * jsstring);
  body : option UserCreate
}.

(** A [Response] as the client uses it: the status, and what [res.json()]
    settles to at the type the caller's annotation asserts (TypeScript
    does not check it at run time). *)
Record Response (A : Type) : Type := mkResponse {
  status : Z;
  json : Outcome A
}.
Arguments mkResponse {A}.
Arguments status {A}.
Arguments json {A}.

(** [res.ok]: the status is in the range 200-299. *)
Definition ok {A} (res : Response A) : bool :=
  (200 <=? status res) && (status res <=? 299).

(** The network: what [fetch] settles to for a request, at each payload
    type the clients assert.  A rejected [fetch] is a transport error. *)
Record Network : Type := mkNetwork {
  fetch_users : Request -> Outcome (Response (list User));
  fetch_user : Request -> Outcome (Response User);
  fetch_void : Request -> Outcome (Response unit)
}.

(** Effects visible outside the component. *)
Inductive Effect : Type :=
| Fetch (req : Request)                      (* fetch(url, init) *)
| ReadJson                                   (* res.json() *)
| ConsoleLog (label : jsstring)              (* console.log(label, ...) *)
| PreventDefault                             (* e.preventDefault() *)
| AlertShown (title message : jsstring) (buttons : list jsstring).
                                             (* Alert.alert(...) *)

(** [await fetch(...)] at payload type [A]. *)
Definition fetch {A} (reply : Request -> Outcome (Response A))
    (req : Request) : Async Effect (Response A) :=
  ([Fetch req], reply req).

(** [await res.json()] *)
Definition res_json {A} (res : Response A) : Async Effect A :=
  ([ReadJson], json res).

(** The interface shared by the two modules imported as [userApi]. *)
Record UserApi : Type := mkUserApi {
  getUsers : Async Effect (list User);
  getUser : Z -> Async Effect User;
  createUser : UserCreate -> Async Effect User;
  updateUser : Z -> UserCreate -> Async Effect User;
  deleteUser : Z -> Async Effect unit
}.

(* ================================================================== *)
(** * frontend/src/api/users.ts *)
(* ================================================================== *)

Module FrontendApi.
Section WithEnv.
(** [import.meta.env.VITE_API_BASE_URL] and the network. *)
Variable VITE_API_BASE_URL : jsstring.
Variable net : Network.

Definition API_BASE : jsstring := VITE_API_BASE_URL ++ js "/api/users".

Definition getUsers : Async Effect (list User) :=
  res <- fetch (fetch_users net) (mkRequest API_BASE GET [] None) ;;
  if negb (ok res) then throw (ErrorObj (js "Failed to fetch users"))
  else res_json res.

Definition getUser (id : Z) : Async Effect User :=
  res <- fetch (fetch_user net)
           (mkRequest (API_BASE ++ js "/" ++ number_toString id) GET [] None) ;;
  if negb (ok res) then throw (ErrorObj (js "Failed to fetch user"))
  else res_json res.

Definition createUser (user : UserCreate) : Async Effect User :=
  emit (ConsoleLog (js "4. api/users.ts createUser: Making fetch request")) ;;
  emit (ConsoleLog (js "Steps 5 to 8 happen in the backend")) ;;
  res <- fetch (fetch_user net)
           (mkRequest API_BASE POST
              [(js "Content-Type", js "application/json")] (Some user)) ;;
  data <- res_json res ;;
  emit (ConsoleLog (js "9. api/users.ts createUser: Response received")) ;;
  if negb (ok res) then throw (ErrorObj (js "Failed to create user"))
  else ret data.

Definition updateUser (id : Z) (user : UserCreate) : Async Effect User :=
  res <- fetch (fetch_user net)
           (mkRequest (API_BASE ++ js "/" ++ number_toString id) PUT
              [(js "Content-Type", js "application/json")] (Some user)) ;;
  if negb (ok res) then throw (ErrorObj (js "Failed to update user"))
  else res_json res.

Definition deleteUser (id : Z) : Async Effect unit :=
  res <- fetch (fetch_void net)
           (mkRequest (API_BASE ++ js "/" ++ number_toString id) DELETE [] None) ;;
  if negb (ok res) then throw (ErrorObj (js "Failed to delete user"))
  else ret tt.

Definition userApi : UserApi :=
  mkUserApi getUsers getUser createUser updateUser deleteUser.
End WithEnv.
End FrontendApi.

(* ================================================================== *)
(** * mobile/src/api/users.ts *)
(* ================================================================== *)

Module MobileApi.
Section WithEnv.
(** [process.env.EXPO_PUBLIC_API_BASE_URL] and the network. *)
Variable EXPO_PUBLIC_API_BASE_URL : jsstring.
Variable net : Network.

Definition API_BASE : jsstring :=
  EXPO_PUBLIC_API_BASE_URL ++ js "/api/users".

Definition getUsers : Async Effect (list User) :=
  res <- fetch (fetch_users net) (mkRequest (API_BASE ++ js "/") GET [] None) ;;
  if negb (ok res) then throw (ErrorObj (js "Failed to fetch users"))
  else res_json res.

Definition getUser (id : Z) : Async Effect User :=
  res <- fetch (fetch_user net)
           (mkRequest (API_BASE ++ js "/" ++ number_toString id) GET [] None) ;;
  if negb (ok res) then throw (ErrorObj (js "Failed to fetch user"))
  else res_json res.

Definition createUser (user : UserCreate) : Async Effect User :=
  res <- fetch (fetch_user net)
           (mkRequest (API_BASE ++ js "/") POST
              [(js "Content-Type", js "application/json")] (Some user)) ;;
  if negb (ok res) then throw (ErrorObj (js "Failed to create user"))
  else res_json res.

Definition updateUser (id : Z) (user : UserCreate) : Async Effect User :=
  res <- fetch (fetch_user net)
           (mkRequest (API_BASE ++ js "/" ++ number_toString id) PUT
              [(js "Content-Type", js "application/json")] (Some user)) ;;
  if negb (ok res) then throw (ErrorObj (js "Failed to update user"))
  else res_json res.

Definition deleteUser (id : Z) : Async Effect unit :=
  res <- fetch (fetch_void net)
           (mkRequest (API_BASE ++ js "/" ++ number_toString id) DELETE [] None) ;;
  if negb (ok res) then throw (ErrorObj (js "Failed to delete user"))
  else ret tt.

Definition userApi : UserApi :=
  mkUserApi getUsers getUser createUser updateUser deleteUser.
End WithEnv.
End MobileApi.

(* ================================================================== *)
(** * Component state *)
(* ================================================================== *)

(** The five [useState] cells of App and of Index. *)
Record State : Type := mkState {
  users : list User;
  formData : UserCreate;
  editingId : option Z;
  loading : bool;
  error : option jsstring
}.

(** The values of the [useState] initialisers. *)
Definition initial : State :=
  mkState [] (UserCreate.mk (js "") (js "")) None false None.

(** A call of the Resource Client made by a handler. *)
Inductive ApiCall : Type :=
| CallGetUsers
| CallCreateUser (user : UserCreate)
| CallUpdateUser (id : Z) (user : UserCreate)
| CallDeleteUser (id : Z).

(** What a handler does: effects on the world, calls of [userApi], and
    calls of the five setters. *)
Inductive Event : Type :=
| World (e : Effect)
| Invoke (c : ApiCall)
| SetUsers (v : list User)
| SetFormData (v : UserCreate)
| SetEditingId (v : option Z)
| SetLoading (v : bool)
| SetError (v : option jsstring).

Definition Handler : Type := Async Event unit.

Definition setUsers (v : list User) : Handler := emit (SetUsers v).
Definition setFormData (v : UserCreate) : Handler := emit (SetFormData v).
Definition setEditingId (v : option Z) : Handler := emit (SetEditingId v).
Definition setLoading (v : bool) : Handler := emit (SetLoading v).
Definition setError (v : option jsstring) : Handler := emit (SetError v).

Definition console_log (label : string) : Handler :=
  emit (World (ConsoleLog (js label))).

(** [await userApi.f(...)]: the call is recorded, then the client's own
    effects happen and its outcome is the outcome of the [await]. *)
Definition await {A} (c : ApiCall) (m : Async Effect A) : Async Event A :=
  emit (Invoke c) ;; lift World m.

(** One queued update applied to the state. *)
Definition update (s : State) (ev : Event) : State :=
  match ev with
  | World _ | Invoke _ => s
  | SetUsers v => mkState v (formData s) (editingId s) (loading s) (error s)
  | SetFormData v => mkState (users s) v (editingId s) (loading s) (error s)
  | SetEditingId v => mkState (users s) (formData s) v (loading s) (error s)
  | SetLoading v => mkState (users s) (formData s) (editingId s) v (error s)
  | SetError v => mkState (users s) (formData s) (editingId s) (loading s) v
  end.

(** The state once every update of a trace has been applied. *)
Definition commit (tr : list Event) (s : State) : State :=
  fold_left update tr s.

(** The handler built by the render of state [s] is invoked and runs to
    completion: the state afterwards. *)
Definition dispatch (h : State -> Handler) (s : State) : State :=
  commit (effects (h s)) s.

(** The requests a trace sends, the client calls it makes, and whether
    it ever turns the Busy flag on. *)
Definition fetches (tr : list Event) : list Request :=
  flat_map (fun ev => match ev with World (Fetch r) => [r] | _ => [] end) tr.

Definition invocations (tr : list Event) : list ApiCall :=
  flat_map (fun ev => match ev with Invoke c => [c] | _ => [] end) tr.

Definition enters_busy (tr : list Event) : bool :=
  existsb (fun ev => match ev with SetLoading true => true | _ => false end) tr.

(** What the user asks of the component.  [Load] is the effect run on
    mount; the others are presses of the controls rendered by UserForm
    and UserList. *)
Inductive Intent : Type :=
| Load
| Submit
| Cancel
| Edit (user : User)
| Delete (id : Z).

(** [disabled={loading}] on the submit and cancel buttons of UserForm
    and on the edit and delete buttons of UserList (both front ends);
    the mount effect is not behind a control. *)
Definition disabled (i : Intent) (c : State) : bool :=
  match i with
  | Load => false
  | Submit | Cancel | Edit _ | Delete _ => loading c
  end.

(* ================================================================== *)
(** * frontend/src/App.tsx *)
(* ================================================================== *)

Module App.
Section WithApi.
Variable userApi : UserApi.

(** Every handler below is a closure of one render; [c] holds the
    values of [users], [formData], [editingId], [loading] and
    [error] that render saw. *)

Definition loadUsers (c : State) : Handler :=
  try_catch_finally
    (setLoading true ;;
     setError None ;;
     data <- await CallGetUsers (getUsers userApi) ;;
     setUsers data)
    (fun err => setError (Some (message_or err (js "Failed to load users"))))
    (setLoading false).

Definition handleCreate (c : State) : Handler :=
  emit (World PreventDefault) ;;
  console_log "2. App.tsx handleCreate: Received submit event." ;;
  console_log "Form data:" ;;
  try_catch_finally
    (setLoading true ;;
     setError None ;;
     console_log "3. App.tsx: About to call userApi.createUser()" ;;
     await (CallCreateUser (formData c)) (createUser userApi (formData c)) ;;
     console_log "10. App.tsx: API call successful, resetting form" ;;
     setFormData (UserCreate.mk (js "") (js "")) ;;
     loadUsers c)
    (fun err => setError (Some (message_or err (js "Failed to create user"))))
    (setLoading false).

Definition handleUpdate (c : State) : Handler :=
  emit (World PreventDefault) ;;
  match editingId c with
  | None => ret tt                                   (* !editingId *)
  | Some id =>
      if negb (truthy (Some id)) then ret tt         (* !editingId *)
      else
        try_catch_finally
          (setLoading true ;;
           setError None ;;
           await (CallUpdateUser id (formData c))
                 (updateUser userApi id (formData c)) ;;
           setEditingId None ;;
           setFormData (UserCreate.mk (js "") (js "")) ;;
           loadUsers c)
          (fun err =>
             setError (Some (message_or err (js "Failed to update user"))))
          (setLoading false)
  end.

Definition handleDelete (id : Z) (c : State) : Handler :=
  try_catch_finally
    (setLoading true ;;
     setError None ;;
     await (CallDeleteUser id) (deleteUser userApi id) ;;
     loadUsers c)
    (fun err => setError (Some (message_or err (js "Failed to delete user"))))
    (setLoading false).

Definition startEdit (user : User) (c : State) : Handler :=
  setEditingId (Some (User.id user)) ;;
  setFormData (UserCreate.mk (User.name user) (User.email user)).

Definition cancelEdit (c : State) : Handler :=
  setEditingId None ;;
  setFormData (UserCreate.mk (js "") (js "")).

(** The props of the returned JSX:
    [onSubmit={editingId ? handleUpdate : handleCreate}],
    [onCancel={editingId ? cancelEdit : undefined}],
    [onEdit={startEdit}], [onDelete={handleDelete}];
    [useEffect(() => { loadUsers(); }, [])] on mount. *)
Definition onSubmit (c : State) : Handler :=
  if truthy (editingId c) then handleUpdate c else handleCreate c.

Definition onCancel (c : State) : option Handler :=
  if truthy (editingId c) then Some (cancelEdit c) else None.

Definition on (i : Intent) (c : State) : Handler :=
  match i with
  | Load => loadUsers c
  | Submit => onSubmit c
  | Cancel => match onCancel c with Some h => h | None => ret tt end
  | Edit user => startEdit user c
  | Delete id => handleDelete id c
  end.

(** The intent as it arrives through the rendered controls. *)
Definition press (i : Intent) (c : State) : Handler :=
  if disabled i c then ret tt else on i c.
End WithApi.
End App.

(* ================================================================== *)
(** * mobile/app/index.tsx *)
(* ================================================================== *)

(** The button of the confirmation dialog the user presses. *)
Inductive DialogChoice : Type := PressCancel | PressDelete.

Definition Alert_alert (title message : jsstring) (buttons : list jsstring)
    : Handler :=
  emit (World (AlertShown title message buttons)).

Module Index.
Section WithApi.
Variable userApi : UserApi.

Definition loadUsers (c : State) : Handler :=
  try_catch_finally
    (setLoading true ;;
     setError None ;;
     data <- await CallGetUsers (getUsers userApi) ;;
     setUsers data)
    (fun err =>
       let message := message_or err (js "Failed to load users") in
       setError (Some message) ;;
       Alert_alert (js "Error") message [])
    (setLoading false).

Definition handleCreate (c : State) : Handler :=
  if not_str (trim (UserCreate.name (formData c)))
     || not_str (trim (UserCreate.email (formData c)))
  then Alert_alert (js "Validation Error") (js "Name and email are required") []
  else
    try_catch_finally
      (setLoading true ;;
       setError None ;;
       await (CallCreateUser (formData c)) (createUser userApi (formData c)) ;;
       setFormData (UserCreate.mk (js "") (js "")) ;;
       loadUsers c)
      (fun err =>
         let message := message_or err (js "Failed to create user") in
         setError (Some message) ;;
         Alert_alert (js "Error") message [])
      (setLoading false).

Definition handleUpdate (c : State) : Handler :=
  match editingId c with
  | None => ret tt                                   (* !editingId *)
  | Some id =>
      if negb (truthy (Some id)) then ret tt         (* !editingId *)
      else if not_str (trim (UserCreate.name (formData c)))
              || not_str (trim (UserCreate.email (formData c)))
      then Alert_alert (js "Validation Error")
                       (js "Name and email are required") []
      else
        try_catch_finally
          (setLoading true ;;
           setError None ;;
           await (CallUpdateUser id (formData c))
                 (updateUser userApi id (formData c)) ;;
           setEditingId None ;;
           setFormData (UserCreate.mk (js "") (js "")) ;;
           loadUsers c)
          (fun err =>
             let message := message_or err (js "Failed to update user") in
             setError (Some message) ;;
             Alert_alert (js "Error") message [])
          (setLoading false)
  end.

(** [handleDelete] opens the dialog and returns; the body of the
    Delete button's [onPress] runs if the user presses it. *)
Definition handleDelete (choice : DialogChoice) (id : Z) (c : State)
    : Handler :=
  Alert_alert (js "Delete User")
              (js "Are you sure you want to delete this user?")
              [js "Cancel"; js "Delete"] ;;
  match choice with
  | PressCancel => ret tt
  | PressDelete =>
      try_catch_finally
        (setLoading true ;;
         setError None ;;
         await (CallDeleteUser id) (deleteUser userApi id) ;;
         loadUsers c)
        (fun err =>
           let message := message_or err (js "Failed to delete user") in
           setError (Some message) ;;
           Alert_alert (js "Error") message [])
        (setLoading false)
  end.

Definition startEdit (user : User) (c : State) : Handler :=
  setEditingId (Some (User.id user)) ;;
  setFormData (UserCreate.mk (User.name user) (User.email user)).

Definition cancelEdit (c : State) : Handler :=
  setEditingId None ;;
  setFormData (UserCreate.mk (js "") (js "")).

Definition onSubmit (c : State) : Handler :=
  if truthy (editingId c) then handleUpdate c else handleCreate c.

Definition onCancel (c : State) : option Handler :=
  if truthy (editingId c) then Some (cancelEdit c) else None.

Definition on (choice : DialogChoice) (i : Intent) (c : State) : Handler :=
  match i with
  | Load => loadUsers c
  | Submit => onSubmit c
  | Cancel => match onCancel c with Some h => h | None => ret tt end
  | Edit user => startEdit user c
  | Delete id => handleDelete choice id c
  end.

Definition press (choice : DialogChoice) (i : Intent) (c : State) : Handler :=
  if disabled i c then ret tt else on choice i c.
End WithApi.
End Index.

(** A run of user intents.  Each step carries what the environment
    answers during it: the outcomes of the Resource Client and, on the
    mobile client, the button pressed in the delete dialog. *)
Record Step : Type := mkStep {
  intent : Intent;
  api : UserApi;
  choice : DialogChoice
}.

Fixpoint run_App (steps : list Step) (s : State) : State :=
  match steps with
  | [] => s
  | st :: rest => run_App rest (dispatch (App.on (api st) (intent st)) s)
  end.

Fixpoint run_Index (steps : list Step) (s : State) : State :=
  match steps with
  | [] => s
  | st :: rest =>
      run_Index rest (dispatch (Index.on (api st) (choice st) (intent st)) s)
  end.

(** The gate of index.tsx:
    [!formData.name.trim() || !formData.email.trim()]. *)
Definition draft_rejected (d : UserCreate) : bool :=
  not_str (trim (UserCreate.name d)) || not_str (trim (UserCreate.email d)).

(** A step on which the mobile client does not stop short of the web
    client: a submit carries a draft that passes the gate, a delete is
    confirmed in the dialog. *)
Definition passes (st : Step) (s : State) : bool :=
  match intent st with
  | Submit => negb (draft_rejected (formData s))
  | Delete _ => match choice st with PressDelete => true | PressCancel => false end
  | Load | Cancel | Edit _ => true
  end.

Fixpoint all_pass (steps : list Step) (s : State) : bool :=
  match steps with
  | [] => true
  | st :: rest =>
      passes st s && all_pass rest (dispatch (App.on (api st) (intent st)) s)
  end.

(* ================================================================== *)
(** * Vocabulary of the statements *)
(* ================================================================== *)

(** The requests an effect list of a client sends, and whether it reads
    the body of a response. *)
Definition sent (t : list Effect) : list Request :=
  flat_map (fun e => match e with Fetch r => [r] | _ => [] end) t.

Definition reads_body (t : list Effect) : bool :=
  existsb (fun e => match e with ReadJson => true | _ => false end) t.

(** The network that answers every request with status [st]; [us] and
    [u] are what reading the body gives at the list and at the record
    type. *)
Definition answering (st : Z) (us : Outcome (list User)) (u : Outcome User)
    : Network :=
  mkNetwork (fun _ => Resolved (mkResponse st us))
            (fun _ => Resolved (mkResponse st u))
            (fun _ => Resolved (mkResponse st (Resolved tt))).

(** The computation rejects with [Error(msg)] and never read a body. *)
Definition fails_unread {A} (m : Async Effect A) (msg : jsstring) : Prop :=
  reads_body (effects m) = false /\ settled m = Rejected (ErrorObj msg).

(** The client call a submit asks for, by the [onSubmit] prop: the
    update of the EditTarget when it is truthy, a create otherwise. *)
Definition submit_call (c : State) : ApiCall :=
  match editingId c with
  | Some id =>
      if truthy (Some id) then CallUpdateUser id (formData c)
      else CallCreateUser (formData c)
  | None => CallCreateUser (formData c)
  end.

(** The form of [s'] is the form of [c] and the Error slot holds [msg]. *)
Definition form_kept_with_error (c s' : State) (msg : jsstring) : Prop :=
  formData s' = formData c /\ editingId s' = editingId c /\ error s' = Some msg.

(** What a chained reload leaves in [s'], started from [c]: the list it
    returned when [getUsers] resolves; when it rejects, the cache of [c]
    and, in the Error slot, the message of the Error it threw, or the
    text "Failed to load users" if what it threw is not an Error. *)
Definition reload_result (userApi : UserApi) (c s' : State) : Prop :=
  match settled (getUsers userApi) with
  | Resolved data => users s' = data
  | Rejected (ErrorObj message) =>
      users s' = users c /\ error s' = Some message
  | Rejected NonError =>
      users s' = users c /\ error s' = Some (js "Failed to load users")
  end.

(* ================================================================== *)
(** * Sample data *)
(* ================================================================== *)

Module Sample.
Definition ada : User := User.mk 1 (js "Ada") (js "ada@x.com").
Definition bob : User := User.mk 7 (js "Bob") (js "b@x.com").

(** The draft of the validation example of the specification. *)
Definition no_name : UserCreate := UserCreate.mk (js "") (js "x@x.com").
Definition ada_draft : UserCreate := UserCreate.mk (js "Ada") (js "ada@x.com").

Definition idle (d : UserCreate) (target : option Z) : State :=
  mkState [bob] d target false None.

Definition busy (d : UserCreate) (target : option Z) : State :=
  mkState [bob] d target true None.

(** A backend that accepts every request. *)
Definition up : Network :=
  mkNetwork
    (fun _ => Resolved (mkResponse 200 (Resolved [ada; bob])))
    (fun req => Resolved (mkResponse
                  (match method req with POST => 201 | _ => 200 end)
                  (Resolved ada)))
    (fun _ => Resolved (mkResponse 204 (Resolved tt))).

(** A backend that answers 500 with a body that is not JSON. *)
Definition syntax_error : Thrown :=
  ErrorObj (js "Unexpected token I in JSON at position 0").

Definition down : Network :=
  mkNetwork
    (fun _ => Resolved (mkResponse 500 (Rejected syntax_error)))
    (fun _ => Resolved (mkResponse 500 (Rejected syntax_error)))
    (fun _ => Resolved (mkResponse 500 (Rejected syntax_error))).

Definition base : jsstring := js "http://localhost:8000".

(** Clients whose calls all succeed, all fail, or whose mutations
    succeed while the reload fails. *)
Definition good : UserApi :=
  mkUserApi ([], Resolved [ada; bob]) (fun _ => ([], Resolved ada))
            (fun _ => ([], Resolved ada)) (fun _ _ => ([], Resolved ada))
            (fun _ => ([], Resolved tt)).

Definition failing (err : Thrown) : UserApi :=
  mkUserApi ([], Rejected err) (fun _ => ([], Rejected err))
            (fun _ => ([], Rejected err)) (fun _ _ => ([], Rejected err))
            (fun _ => ([], Rejected err)).

Definition stale (err : Thrown) : UserApi :=
  mkUserApi ([], Rejected err) (fun _ => ([], Resolved ada))
            (fun _ => ([], Resolved ada)) (fun _ _ => ([], Resolved ada))
            (fun _ => ([], Resolved tt)).

Definition network_error : Thrown := ErrorObj (js "Network request failed").

(** The client whose mutations succeed while the reload cannot reach
    the backend. *)
Definition reload_down : UserApi := stale network_error.

(** Bob is being edited, with a draft that passes the gate. *)
Definition editing : State := idle ada_draft (Some 7).

(** The request the web client sends to create [ada_draft]. *)
Definition post_ada : Request :=
  mkRequest (js "http://localhost:8000/api/users") POST
    [(js "Content-Type", js "application/json")] (Some ada_draft).

(** One submit, answered by a client whose calls succeed. *)
Definition one_submit : list Step := [mkStep Submit good PressDelete].

(** One delete, cancelled in the dialog of the mobile client, answered
    by a client whose calls succeed. *)
Definition one_cancelled_delete : list Step :=
  [mkStep (Delete 7) good PressCancel].

(** Load, edit Bob, submit the update, delete Bob, load again. *)
Definition session : list Step :=
  [mkStep Load good PressCancel;
   mkStep (Edit bob) good PressCancel;
   mkStep Submit good PressCancel;
   mkStep (Delete 7) (stale network_error) PressDelete;
   mkStep Cancel good PressCancel;
   mkStep Load (failing NonError) PressCancel].
End Sample.

(* ================================================================== *)
(** * components/UserForm.tsx and components/UserList.tsx *)
(* ================================================================== *)

(** What a button shows: a text, or the spinner of the mobile submit
    button. *)
Inductive Content : Type :=
| Text (s : jsstring)
| ActivityIndicator.

(** A rendered button and a rendered text input, with the props that
    decide what a press or a keystroke does. *)
Record Button : Type := mkButton {
  content : Content;
  button_disabled : bool;
  onPress : Handler
}.

(** The kind of a text field: the [<input type="text">] and the
    [<input type="email">] of the web form, and the [TextInput] of
    React Native. *)
Inductive InputType : Type :=
| TypeText
| TypeEmail
| NativeText.

Record Input : Type := mkInput {
  value : jsstring;
  input_type : InputType;
  input_disabled : bool;
  required : bool;
  onChangeText : jsstring -> Handler
}.

(** What an HTML text field makes of its content (the value
    sanitization of its type): a text field drops line breaks, an
    e-mail field drops line breaks and then the ASCII white space at
    both ends.  This is the [e.target.value] handed to [onChange]. *)
Definition is_line_break (ch : N) : bool := ((ch =? 10) || (ch =? 13))%N.

Definition is_ascii_whitespace (ch : N) : bool :=
  ((ch =? 9) || (ch =? 10) || (ch =? 12) || (ch =? 13) || (ch =? 32))%N.

Definition strip_line_breaks (s : jsstring) : jsstring :=
  filter (fun ch => negb (is_line_break ch)) s.

Fixpoint strip_leading_whitespace (s : jsstring) : jsstring :=
  match s with
  | [] => []
  | ch :: r => if is_ascii_whitespace ch then strip_leading_whitespace r else s
  end.

Definition strip_whitespace (s : jsstring) : jsstring :=
  rev (strip_leading_whitespace (rev (strip_leading_whitespace s))).

Definition sanitize (t : InputType) (s : jsstring) : jsstring :=
  match t with
  | TypeText => strip_line_breaks s
  | TypeEmail => strip_whitespace (strip_line_breaks s)
  | NativeText => s
  end.

(** A valid e-mail address, as [type="email"] checks it: one or more
    [atext] characters or dots, an at sign, and one or more labels
    separated by dots, each of 1 to 63 letters, digits and hyphens that
    neither starts nor ends with a hyphen. *)
Definition is_alnum (ch : N) : bool :=
  (((48 <=? ch) && (ch <=? 57)) || ((65 <=? ch) && (ch <=? 90))
   || ((97 <=? ch) && (ch <=? 122)))%N.

Definition is_atext (ch : N) : bool :=
  is_alnum ch
  || existsb (N.eqb ch)
       [33; 35; 36; 37; 38; 39; 42; 43; 45; 47; 61; 63; 94; 95; 96;
        123; 124; 125; 126]%N.

(** [s.split(sep)] *)
Fixpoint split_on (sep : N) (s : jsstring) : list jsstring :=
  match s with
  | [] => [[]]
  | ch :: r =>
      if (ch =? sep)%N then [] :: split_on sep r
      else match split_on sep r with
           | [] => [[ch]]
           | first :: others => (ch :: first) :: others
           end
  end.

Definition valid_label (l : jsstring) : bool :=
  match l with
  | [] => false
  | ch :: _ =>
      is_alnum ch && is_alnum (last l ch)
      && forallb (fun c => is_alnum c || (c =? 45)%N) l
      && (List.length l <=? 63)%nat
  end.

Definition valid_email_address (s : jsstring) : bool :=
  match split_on 64 s with
  | [local; domain] =>
      negb (not_str local)
      && forallb (fun c => is_atext c || (c =? 46)%N) local
      && forallb valid_label (split_on 46 domain)
  | _ => false
  end.

(** Constraint validation of one field: a field that is not disabled
    fails when it is required and empty, or is an e-mail field holding
    something other than a valid address. *)
Definition fails_validation (i : Input) : bool :=
  if input_disabled i then false
  else
    let v := sanitize (input_type i) (value i) in
    (required i && not_str v)
    || match input_type i with
       | TypeEmail => negb (not_str v) && negb (valid_email_address v)
       | TypeText | NativeText => false
       end.

(** [interface UserFormProps] *)
Record UserFormProps : Type := mkUserFormProps {
  props_formData : UserCreate;
  props_setFormData : UserCreate -> Handler;
  props_onSubmit : Handler;
  props_onCancel : option Handler;
  props_isEditing : bool;
  props_loading : bool
}.

(** [in_form] says that the fields and the submit button sit in an
    HTML [<form>], whose submit event the browser fires only when no
    field fails validation. *)
Record UserFormView : Type := mkUserFormView {
  in_form : bool;
  name_input : Input;
  email_input : Input;
  submit_button : Button;
  cancel_button : option Button
}.

(** One entry of the rendered list. *)
Record Row : Type := mkRow {
  key : Z;
  shown_name : jsstring;
  shown_email : jsstring;
  separator_above : bool;
  edit_button : Button;
  delete_button : Button
}.

Inductive UserListView : Type :=
| EmptyText (s : jsstring)
| Rows (rows : list Row).

(** [users.map((user, index) => ...)] *)
Fixpoint map_index {A B} (f : A -> nat -> B) (l : list A) (index : nat) : list B :=
  match l with
  | [] => []
  | a :: r => f a index :: map_index f r (S index)
  end.

(** What the component function of App and of Index returns, as far as
    it decides what the user can do next. *)
Record Screen : Type := mkScreen {
  heading : jsstring;
  busy_indicator : bool;
  form : UserFormView;
  list_view : UserListView
}.

(** A disabled button does not call its handler, a disabled (or
    non-editable) input does not report a change; an enabled input
    reports its content as its type sanitizes it. *)
Definition click (b : Button) : Handler :=
  if button_disabled b then ret tt else onPress b.

Definition type_into (i : Input) (text : jsstring) : Handler :=
  if input_disabled i then ret tt
  else onChangeText i (sanitize (input_type i) text).

(** A press on the submit button: in an HTML form nothing happens while
    a field fails validation. *)
Definition submit (f : UserFormView) : Handler :=
  if in_form f && (fails_validation (name_input f)
                   || fails_validation (email_input f))
  then ret tt
  else click (submit_button f).

(** What the user does on a screen: type into a field, or press a
    button; list buttons are named by the position of their row. *)
Inductive Gesture : Type :=
| EnterName (text : jsstring)
| EnterEmail (text : jsstring)
| TapSubmit
| TapCancel
| TapEdit (k : nat)
| TapDelete (k : nat).

Definition rows_of (v : UserListView) : list Row :=
  match v with
  | EmptyText _ => []
  | Rows rows => rows
  end.

Definition perform (v : Screen) (g : Gesture) : Handler :=
  match g with
  | EnterName text => type_into (name_input (form v)) text
  | EnterEmail text => type_into (email_input (form v)) text
  | TapSubmit => submit (form v)
  | TapCancel =>
      match cancel_button (form v) with
      | Some b => click b
      | None => ret tt
      end
  | TapEdit k =>
      match nth_error (rows_of (list_view v)) k with
      | Some r => click (edit_button r)
      | None => ret tt
      end
  | TapDelete k =>
      match nth_error (rows_of (list_view v)) k with
      | Some r => click (delete_button r)
      | None => ret tt
      end
  end.

(** frontend/src/components/UserForm.tsx, frontend/src/components/
    UserList.tsx and the JSX returned by App.  The two fields are
    [required], the second is [type="email"], and the submit button is
    the [type="submit"] button of the [<Form>]. *)
Module Frontend.
Definition UserForm (p : UserFormProps) : UserFormView :=
  mkUserFormView true
    (mkInput (UserCreate.name (props_formData p)) TypeText (props_loading p) true
       (fun text =>
          props_setFormData p
            (UserCreate.mk text (UserCreate.email (props_formData p)))))
    (mkInput (UserCreate.email (props_formData p)) TypeEmail (props_loading p) true
       (fun text =>
          props_setFormData p
            (UserCreate.mk (UserCreate.name (props_formData p)) text)))
    (mkButton (Text (if props_isEditing p then js "Update" else js "Create"))
       (props_loading p)
       (console_log "1. UserForm: Form submitted" ;; props_onSubmit p))
    (if props_isEditing p
     then match props_onCancel p with
          | Some h => Some (mkButton (Text (js "Cancel")) (props_loading p) h)
          | None => None
          end
     else None).

Definition UserList (users : list User) (onEdit : User -> Handler)
    (onDelete : Z -> Handler) (loading : bool) : UserListView :=
  if (List.length users =? 0)%nat
  then EmptyText (js "No users yet. Create one above!")
  else Rows (map (fun user =>
                    mkRow (User.id user) (User.name user) (User.email user) false
                      (mkButton (Text (js "Edit")) loading (onEdit user))
                      (mkButton (Text (js "Delete")) loading
                         (onDelete (User.id user))))
                 users).

Definition render (userApi : UserApi) (c : State) : Screen :=
  mkScreen
    (if truthy (editingId c) then js "Edit User" else js "Add User")
    (loading c)
    (UserForm (mkUserFormProps (formData c) setFormData
                 (App.onSubmit userApi c) (App.onCancel c)
                 (truthy (editingId c)) (loading c)))
    (UserList (users c) (fun user => App.startEdit user c)
       (fun id => App.handleDelete userApi id c) (loading c)).

Definition gesture (userApi : UserApi) (g : Gesture) (c : State) : Handler :=
  perform (render userApi c) g.
End Frontend.

(** mobile/src/components/UserForm.tsx, mobile/src/components/
    UserList.tsx and the JSX returned by Index. *)
Module Mobile.
Definition UserForm (p : UserFormProps) : UserFormView :=
  mkUserFormView false
    (mkInput (UserCreate.name (props_formData p)) NativeText (props_loading p) false
       (fun text =>
          props_setFormData p
            (UserCreate.mk text (UserCreate.email (props_formData p)))))
    (mkInput (UserCreate.email (props_formData p)) NativeText (props_loading p) false
       (fun text =>
          props_setFormData p
            (UserCreate.mk (UserCreate.name (props_formData p)) text)))
    (mkButton
       (if props_loading p then ActivityIndicator
        else Text (if props_isEditing p then js "Update" else js "Create"))
       (props_loading p)
       (props_onSubmit p))
    (if props_isEditing p
     then match props_onCancel p with
          | Some h => Some (mkButton (Text (js "Cancel")) (props_loading p) h)
          | None => None
          end
     else None).

Definition UserList (users : list User) (onEdit : User -> Handler)
    (onDelete : Z -> Handler) (loading : bool) : UserListView :=
  if (List.length users =? 0)%nat
  then EmptyText (js "No users yet. Create one above!")
  else Rows (map_index
               (fun user index =>
                  mkRow (User.id user) (User.name user) (User.email user)
                    (0 <? index)%nat
                    (mkButton (Text (js "Edit")) loading (onEdit user))
                    (mkButton (Text (js "Delete")) loading
                       (onDelete (User.id user))))
               users 0).

Definition render (userApi : UserApi) (choice : DialogChoice) (c : State)
    : Screen :=
  mkScreen
    (if truthy (editingId c) then js "Edit User" else js "Add User")
    (loading c)
    (UserForm (mkUserFormProps (formData c) setFormData
                 (Index.onSubmit userApi c) (Index.onCancel c)
                 (truthy (editingId c)) (loading c)))
    (UserList (users c) (fun user => Index.startEdit user c)
       (fun id => Index.handleDelete userApi choice id c) (loading c)).

Definition gesture (userApi : UserApi) (choice : DialogChoice) (g : Gesture)
    (c : State) : Handler :=
  perform (render userApi choice c) g.
End Mobile.

(* ================================================================== *)
(** * More vocabulary *)
(* ================================================================== *)

(** No client call and no request while the Busy flag is off; [flag] is
    the value of the flag when the trace starts. *)
Fixpoint calls_while_busy (flag : bool) (tr : list Event) : bool :=
  match tr with
  | [] => true
  | SetLoading v :: r => calls_while_busy v r
  | Invoke _ :: r => flag && calls_while_busy flag r
  | World (Fetch _) :: r => flag && calls_while_busy flag r
  | _ :: r => calls_while_busy flag r
  end.

(** The dialogs a trace opens, as (title, message), and the messages it
    puts into the Error slot. *)
Definition alerts (tr : list Event) : list (jsstring * jsstring) :=
  flat_map (fun ev => match ev with
                      | World (AlertShown title message _) => [(title, message)]
                      | _ => []
                      end) tr.

Definition errors_set (tr : list Event) : list jsstring :=
  flat_map (fun ev => match ev with SetError (Some m) => [m] | _ => [] end) tr.

(** The address of one record, as both clients build it. *)
Definition item_url (API_BASE : jsstring) (id : Z) : jsstring :=
  API_BASE ++ js "/" ++ number_toString id.

(** The steps during which the Resource Client answers with [userApi]
    and the Delete button of the dialog is pressed. *)
Definition steps_with (userApi : UserApi) (intents : list Intent) : list Step :=
  map (fun i => mkStep i userApi PressDelete) intents.

(** The effect is a read of a response body. *)
Definition reads_one (e : Effect) : bool :=
  match e with ReadJson => true | _ => false end.

(** The handler sent exactly one request, left the cache as it was and
    put [msg] into the Error slot. *)
Definition fails_showing (h : State -> Handler) (c : State) (msg : jsstring)
    : Prop :=
  List.length (fetches (effects (h c))) = 1%nat /\
  users (dispatch h c) = users c /\
  error (dispatch h c) = Some msg.


(** The three shapes of request the clients build: a bare GET or
    DELETE, and a POST or PUT that carries a draft as JSON. *)
Definition bare (m : Method) (address : jsstring) : Request :=
  mkRequest address m [] None.

Definition carrying (m : Method) (address : jsstring) (d : UserCreate) : Request :=
  mkRequest address m [(js "Content-Type", js "application/json")] (Some d).

(** The reply to [req] has a status in 200-299 and a body that reads as
    [v]; and, for a request whose answer is not read, a status in
    200-299. *)
Definition accepted {A} (reply : Request -> Outcome (Response A))
    (req : Request) (v : A) : Prop :=
  exists st : Z,
    (200 <=? st) && (st <=? 299) = true /\
    reply req = Resolved (mkResponse st (Resolved v)).

Definition accepted_unread {A} (reply : Request -> Outcome (Response A))
    (req : Request) : Prop :=
  exists (st : Z) (content : Outcome A),
    (200 <=? st) && (st <=? 299) = true /\
    reply req = Resolved (mkResponse st content).

(** The network on which every [fetch] rejects with [err]: the backend
    cannot be reached. *)
Definition unreachable (err : Thrown) : Network :=
  mkNetwork (fun _ => Rejected err) (fun _ => Rejected err)
            (fun _ => Rejected err).

(** The dialog of the mobile delete and the alert of the mobile gate,
    as (title, message). *)
Definition confirm_dialog : jsstring * jsstring :=
  (js "Delete User", js "Are you sure you want to delete this user?").

Definition validation_alert : jsstring * jsstring :=
  (js "Validation Error", js "Name and email are required").

(** More sample data. *)
Module Scenario.
(** Idle, with the message of an earlier failure still in the Error
    slot. *)
Definition after_failure : State :=
  mkState [Sample.bob] Sample.ada_draft (Some 7) false
    (Some (js "Failed to update user")).

(** A record whose id is the number 0. *)
Definition zero : User := User.mk 0 (js "Root") (js "root@x.com").

(** Idle in create mode with an empty form and three records listed. *)
Definition listing : State :=
  mkState [Sample.ada; zero; Sample.bob] (UserCreate.mk (js "") (js ""))
    None false None.

(** Names that are kept as typed, spaces included. *)
Definition spaced : UserCreate :=
  UserCreate.mk (js " Grace Hopper ") (js "grace@x.com ").
End Scenario.

(* ================================================================== *)
(** * Traces and the state they commit *)
(* ================================================================== *)

Arguments js : simpl never.

Lemma commit_app (tr1 tr2 : list Event) (s : State) :
  commit (tr1 ++ tr2) s = commit tr2 (commit tr1 s).
Proof. unfold commit. apply fold_left_app. Qed.

Lemma commit_cons (ev : Event) (tr : list Event) (s : State) :
  commit (ev :: tr) s = commit tr (update s ev).
Proof. reflexivity. Qed.

(** Effects on the world queue no update. *)
Lemma commit_World (t : list Effect) (s : State) :
  commit (map World t) s = s.
Proof.
  induction t as [|e t IH]; [reflexivity|].
  cbn [map]. rewrite commit_cons. exact IH.
Qed.

Lemma invocations_World (t : list Effect) : invocations (map World t) = [].
Proof. induction t as [|e t IH]; [reflexivity|exact IH]. Qed.

Lemma flat_map_World_invocations (t : list Effect) :
  flat_map (fun ev => match ev with Invoke c => [c] | _ => [] end)
    (map World t) = [].
Proof. exact (invocations_World t). Qed.

(** Unfold a handler down to its trace, splitting on the way each call
    of the Resource Client settles. *)
Ltac split_calls :=
  repeat match goal with
    | |- context [getUsers ?a] =>
        let t := fresh "t" in let data := fresh "data" in let err := fresh "err" in
        destruct (getUsers a) as [t [data|err]]
    | |- context [createUser ?a ?d] =>
        let t := fresh "t" in let u := fresh "u" in let err := fresh "err" in
        destruct (createUser a d) as [t [u|err]]
    | |- context [updateUser ?a ?i ?d] =>
        let t := fresh "t" in let u := fresh "u" in let err := fresh "err" in
        destruct (updateUser a i d) as [t [u|err]]
    | |- context [deleteUser ?a ?i] =>
        let t := fresh "t" in let u := fresh "u" in let err := fresh "err" in
        destruct (deleteUser a i) as [t [u|err]]
    end.

Ltac commit_trace :=
  cbn;
  repeat first [ rewrite commit_app | rewrite commit_cons | rewrite commit_World ];
  cbn.

Ltac calls_trace :=
  unfold invocations;
  repeat (cbn; first [ rewrite flat_map_app | rewrite flat_map_World_invocations ]);
  cbn.

Ltac run_handler :=
  unfold dispatch, effects, settled,
    App.handleCreate, App.handleUpdate, App.handleDelete, App.loadUsers,
    App.startEdit, App.cancelEdit,
    Index.handleCreate, Index.handleUpdate, Index.handleDelete,
    Index.loadUsers, Index.startEdit, Index.cancelEdit,
    Alert_alert, console_log, await in *.

(* ================================================================== *)
(** * Loading *)
(* ================================================================== *)

(** C7.  Every load ends with the Busy flag off.  When [getUsers]
    resolves, the cache is exactly the sequence it returned; when it
    rejects, the cache is the one the load started from and the Error
    slot holds the failure's message.  This holds in App and in Index. *)
Theorem loadUsers_replaces_or_keeps (userApi : UserApi) (c : State) :
  loading (dispatch (App.loadUsers userApi) c) = false /\
  loading (dispatch (Index.loadUsers userApi) c) = false /\
  match settled (getUsers userApi) with
  | Resolved data =>
      users (dispatch (App.loadUsers userApi) c) = data /\
      users (dispatch (Index.loadUsers userApi) c) = data
  | Rejected err =>
      users (dispatch (App.loadUsers userApi) c) = users c /\
      users (dispatch (Index.loadUsers userApi) c) = users c /\
      error (dispatch (App.loadUsers userApi) c)
        = Some (message_or err (js "Failed to load users")) /\
      error (dispatch (Index.loadUsers userApi) c)
        = Some (message_or err (js "Failed to load users"))
  end.
Proof.
  run_handler. split_calls; commit_trace; repeat split; reflexivity.
Qed.

(** A load asks the Resource Client for the list exactly once. *)
Lemma loadUsers_invocations (userApi : UserApi) (c : State) :
  invocations (effects (App.loadUsers userApi c)) = [CallGetUsers] /\
  invocations (effects (Index.loadUsers userApi c)) = [CallGetUsers].
Proof.
  run_handler.
  split_calls; calls_trace; split; reflexivity.
Qed.

(* ================================================================== *)
(** * Edit mode *)
(* ================================================================== *)

(** C9.  [startEdit] makes the record's id the EditTarget and a copy of
    its name and email the Draft; [cancelEdit] makes the EditTarget null
    and the Draft empty whatever they were.  Neither calls the Resource
    Client, sends a request or touches the cache, in App and in Index. *)
Theorem startEdit_cancelEdit_are_local (user : User) (c : State) :
  (editingId (dispatch (App.startEdit user) c) = Some (User.id user) /\
   formData (dispatch (App.startEdit user) c)
     = UserCreate.mk (User.name user) (User.email user) /\
   users (dispatch (App.startEdit user) c) = users c /\
   invocations (effects (App.startEdit user c)) = [] /\
   fetches (effects (App.startEdit user c)) = []) /\
  (editingId (dispatch App.cancelEdit c) = None /\
   formData (dispatch App.cancelEdit c) = UserCreate.mk (js "") (js "") /\
   users (dispatch App.cancelEdit c) = users c /\
   invocations (effects (App.cancelEdit c)) = [] /\
   fetches (effects (App.cancelEdit c)) = []) /\
  (editingId (dispatch (Index.startEdit user) c) = Some (User.id user) /\
   formData (dispatch (Index.startEdit user) c)
     = UserCreate.mk (User.name user) (User.email user) /\
   users (dispatch (Index.startEdit user) c) = users c /\
   invocations (effects (Index.startEdit user c)) = [] /\
   fetches (effects (Index.startEdit user c)) = []) /\
  (editingId (dispatch Index.cancelEdit c) = None /\
   formData (dispatch Index.cancelEdit c) = UserCreate.mk (js "") (js "") /\
   users (dispatch Index.cancelEdit c) = users c /\
   invocations (effects (Index.cancelEdit c)) = [] /\
   fetches (effects (Index.cancelEdit c)) = []).
Proof. repeat split. Qed.

(** C8.  A delete leaves the EditTarget and the Draft as they were, for
    every id (the current EditTarget included), whatever the delete and
    the chained reload answer, and on the mobile client whichever button
    of the dialog is pressed. *)
Theorem handleDelete_keeps_edit_mode
    (userApi : UserApi) (choice : DialogChoice) (id : Z) (c : State) :
  editingId (dispatch (App.handleDelete userApi id) c) = editingId c /\
  formData (dispatch (App.handleDelete userApi id) c) = formData c /\
  editingId (dispatch (Index.handleDelete userApi choice id) c) = editingId c /\
  formData (dispatch (Index.handleDelete userApi choice id) c) = formData c.
Proof.
  run_handler. destruct choice; split_calls; commit_trace; repeat split; reflexivity.
Qed.

(** C10.  Called while the EditTarget is null or is the number 0, the
    update handler returns at its guard as a silent no-op.  In
    index.tsx it does nothing at all; in App.tsx it has only called
    [e.preventDefault()].  It calls no client function, sends no
    request, never sets the Busy flag, opens no dialog, and the five
    state components are what they were. *)
Theorem handleUpdate_without_target (userApi : UserApi) (c : State) :
  editingId c = None \/ editingId c = Some 0 ->
  (effects (App.handleUpdate userApi c) = [World PreventDefault] /\
   settled (App.handleUpdate userApi c) = Resolved tt /\
   invocations (effects (App.handleUpdate userApi c)) = [] /\
   fetches (effects (App.handleUpdate userApi c)) = [] /\
   dispatch (App.handleUpdate userApi) c = c) /\
  (effects (Index.handleUpdate userApi c) = [] /\
   settled (Index.handleUpdate userApi c) = Resolved tt /\
   invocations (effects (Index.handleUpdate userApi c)) = [] /\
   fetches (effects (Index.handleUpdate userApi c)) = [] /\
   dispatch (Index.handleUpdate userApi) c = c).
Proof.
  intros [H | H]; run_handler; rewrite H; cbn; repeat split; reflexivity.
Qed.

Lemma handleUpdate_without_target_witness :
  (effects (App.handleUpdate Sample.good (Sample.idle Sample.no_name (Some 0)))
     = [World PreventDefault] /\
   settled (App.handleUpdate Sample.good (Sample.idle Sample.no_name (Some 0)))
     = Resolved tt /\
   invocations (effects (App.handleUpdate Sample.good
      (Sample.idle Sample.no_name (Some 0)))) = [] /\
   fetches (effects (App.handleUpdate Sample.good
      (Sample.idle Sample.no_name (Some 0)))) = [] /\
   dispatch (App.handleUpdate Sample.good) (Sample.idle Sample.no_name (Some 0))
     = Sample.idle Sample.no_name (Some 0)) /\
  (effects (Index.handleUpdate Sample.good (Sample.idle Sample.no_name (Some 0)))
     = [] /\
   settled (Index.handleUpdate Sample.good (Sample.idle Sample.no_name (Some 0)))
     = Resolved tt /\
   invocations (effects (Index.handleUpdate Sample.good
      (Sample.idle Sample.no_name (Some 0)))) = [] /\
   fetches (effects (Index.handleUpdate Sample.good
      (Sample.idle Sample.no_name (Some 0)))) = [] /\
   dispatch (Index.handleUpdate Sample.good) (Sample.idle Sample.no_name (Some 0))
     = Sample.idle Sample.no_name (Some 0)).
Proof.
  apply (handleUpdate_without_target Sample.good
           (Sample.idle Sample.no_name (Some 0))).
  right. reflexivity.
Defined.

(* ================================================================== *)
(** * Submitting *)
(* ================================================================== *)

Lemma draft_rejected_iff (d : UserCreate) :
  draft_rejected d = true <->
  trim (UserCreate.name d) = [] \/ trim (UserCreate.email d) = [].
Proof.
  unfold draft_rejected. rewrite orb_true_iff.
  destruct (trim (UserCreate.name d)), (trim (UserCreate.email d)); cbn;
    intuition discriminate.
Qed.

(** A string trims to the empty string exactly when all of it is
    white space. *)
Lemma trimStart_nil (s : jsstring) :
  trimStart s = [] <-> forallb isWhiteSpace s = true.
Proof.
  induction s as [|ch s IH]; cbn; [tauto|].
  destruct (isWhiteSpace ch); cbn; [exact IH|].
  split; discriminate.
Qed.

Lemma trimStart_head (s : jsstring) :
  match trimStart s with
  | [] => True
  | ch :: _ => isWhiteSpace ch = false
  end.
Proof.
  induction s as [|ch s IH]; cbn; [exact I|].
  destruct (isWhiteSpace ch) eqn:W; [exact IH|exact W].
Qed.

Lemma forallb_rev {A} (f : A -> bool) (l : list A) :
  forallb f (rev l) = true <-> forallb f l = true.
Proof.
  rewrite !forallb_forall. split; intros H x Hx; apply H.
  - apply in_rev in Hx. exact Hx.
  - apply in_rev. exact Hx.
Qed.

(** [s.trim()] is the empty string exactly when [s] is white space
    throughout. *)
Lemma trim_nil (s : jsstring) :
  trim s = [] <-> forallb isWhiteSpace s = true.
Proof.
  unfold trim, trimEnd. split.
  - intros H. apply (f_equal (@rev N)) in H.
    rewrite rev_involutive in H. cbn in H.
    apply trimStart_nil in H. apply (proj1 (forallb_rev _ _)) in H.
    apply trimStart_nil.
    pose proof (trimStart_head s) as Hd.
    destruct (trimStart s) as [|ch r]; [reflexivity|].
    rewrite forallb_forall in H. specialize (H ch (or_introl eq_refl)).
    rewrite Hd in H. discriminate.
  - intros H. apply trimStart_nil in H. rewrite H. reflexivity.
Qed.

Example trim_strips_both_ends : trim (js "  Ada Lovelace ") = js "Ada Lovelace".
Proof. reflexivity. Qed.

Example blank_name_is_rejected :
  draft_rejected (UserCreate.mk [32; 160; 9; 8203]%N (js "x@x.com")) = false /\
  draft_rejected (UserCreate.mk [32; 160; 9; 8202]%N (js "x@x.com")) = true.
Proof. split; reflexivity. Qed.

Lemma truthy_Some (id : Z) : truthy (Some id) = true -> negb (truthy (Some id)) = false.
Proof. intros ->. reflexivity. Qed.

(** C6.  When the create request of a submit fails, or its update
    request does, the Draft and the EditTarget after the handler are the
    ones before it and the Error slot holds the failure's message (the
    handler's fallback when the thrown value is not an Error).  On the
    mobile client the request is only sent for a draft that passes its
    gate. *)
Theorem failed_submit_keeps_form (userApi : UserApi) (c : State) (err : Thrown) :
  (settled (createUser userApi (formData c)) = Rejected err ->
   form_kept_with_error c (dispatch (App.handleCreate userApi) c)
     (message_or err (js "Failed to create user")) /\
   (draft_rejected (formData c) = false ->
    form_kept_with_error c (dispatch (Index.handleCreate userApi) c)
      (message_or err (js "Failed to create user")))) /\
  (forall id : Z,
   editingId c = Some id -> truthy (Some id) = true ->
   settled (updateUser userApi id (formData c)) = Rejected err ->
   form_kept_with_error c (dispatch (App.handleUpdate userApi) c)
     (message_or err (js "Failed to update user")) /\
   (draft_rejected (formData c) = false ->
    form_kept_with_error c (dispatch (Index.handleUpdate userApi) c)
      (message_or err (js "Failed to update user")))).
Proof.
  unfold form_kept_with_error, draft_rejected. split.
  - intros Hreq. run_handler. split; [|intros ->];
      destruct (createUser userApi (formData c)) as [t [u|e]];
      cbn in Hreq; try discriminate; injection Hreq as ->;
      commit_trace; repeat split; reflexivity.
  - intros id Hid Htruthy Hreq. apply truthy_Some in Htruthy.
    run_handler. rewrite Hid, Htruthy. split; [|intros ->];
      destruct (updateUser userApi id (formData c)) as [t [u|e]];
      cbn in Hreq; try discriminate; injection Hreq as ->;
      commit_trace; repeat split; congruence.
Qed.

Lemma failed_submit_keeps_form_witness :
  form_kept_with_error (Sample.idle Sample.ada_draft (Some 7))
    (dispatch (App.handleCreate (Sample.failing Sample.network_error))
       (Sample.idle Sample.ada_draft (Some 7)))
    (js "Network request failed") /\
  form_kept_with_error (Sample.idle Sample.ada_draft (Some 7))
    (dispatch (Index.handleCreate (Sample.failing Sample.network_error))
       (Sample.idle Sample.ada_draft (Some 7)))
    (js "Network request failed") /\
  form_kept_with_error (Sample.idle Sample.ada_draft (Some 7))
    (dispatch (App.handleUpdate (Sample.failing Sample.network_error))
       (Sample.idle Sample.ada_draft (Some 7)))
    (js "Network request failed") /\
  form_kept_with_error (Sample.idle Sample.ada_draft (Some 7))
    (dispatch (Index.handleUpdate (Sample.failing Sample.network_error))
       (Sample.idle Sample.ada_draft (Some 7)))
    (js "Network request failed").
Proof.
  destruct (failed_submit_keeps_form (Sample.failing Sample.network_error)
              (Sample.idle Sample.ada_draft (Some 7)) Sample.network_error)
    as [Hcreate Hupdate].
  destruct (Hcreate eq_refl) as [Hweb Hmobile].
  destruct (Hupdate 7 eq_refl eq_refl eq_refl) as [Hweb' Hmobile'].
  split; [exact Hweb|].
  split; [exact (Hmobile eq_refl)|].
  split; [exact Hweb'|exact (Hmobile' eq_refl)].
Defined.

(** The web client has no gate of its own: a submit asks the Resource
    Client for the create or the update with the Draft as it is. *)
Lemma App_onSubmit_calls_client (userApi : UserApi) (c : State) :
  exists rest : list ApiCall,
    invocations (effects (App.onSubmit userApi c)) = submit_call c :: rest.
Proof.
  unfold App.onSubmit, submit_call. run_handler.
  destruct (editingId c) as [id|]; cbn [truthy];
    [destruct (negb (id =? 0)); cbn [negb]|];
    split_calls; calls_trace; eexists; reflexivity.
Qed.

(** C1, the claim as stated fails.  With the draft [{name: "", email:
    "x@x.com"}] in create mode, index.tsx leaves the Error slot null
    (the message goes to an alert), and App.tsx sends the POST. *)
Lemma validation_sets_no_error_counterexample :
  draft_rejected Sample.no_name = true /\
  error (dispatch (Index.onSubmit Sample.good) (Sample.idle Sample.no_name None))
    = None /\
  fetches (effects (App.onSubmit (FrontendApi.userApi Sample.base Sample.up)
                      (Sample.idle Sample.no_name None))) <> [].
Proof. repeat split. vm_compute. discriminate. Qed.

(** C1, amended.  In index.tsx a submit, in create or in update mode,
    whose Draft has a name or an email that trims to the empty string
    only shows the alert "Validation Error / Name and email are
    required": no client call, no request, the Busy flag is never set,
    and the five state components, the Error slot among them, are what
    they were.  In App.tsx a submit calls the Resource Client whatever
    the Draft holds. *)
Theorem mobile_gate_rejects_locally (userApi : UserApi) (c : State) :
  trim (UserCreate.name (formData c)) = [] \/
  trim (UserCreate.email (formData c)) = [] ->
  (effects (Index.onSubmit userApi c)
     = [World (AlertShown (js "Validation Error")
                 (js "Name and email are required") [])] /\
   invocations (effects (Index.onSubmit userApi c)) = [] /\
   fetches (effects (Index.onSubmit userApi c)) = [] /\
   enters_busy (effects (Index.onSubmit userApi c)) = false /\
   dispatch (Index.onSubmit userApi) c = c) /\
  (exists rest : list ApiCall,
     invocations (effects (App.onSubmit userApi c)) = submit_call c :: rest).
Proof.
  intros H. apply draft_rejected_iff in H. unfold draft_rejected in H.
  split; [|apply App_onSubmit_calls_client].
  assert (E : Index.onSubmit userApi c
              = Alert_alert (js "Validation Error")
                  (js "Name and email are required") []).
  { unfold Index.onSubmit, Index.handleUpdate, Index.handleCreate.
    destruct (editingId c) as [id|]; cbn [truthy]; [|rewrite H; reflexivity].
    destruct (negb (id =? 0)); cbn [negb]; rewrite H; reflexivity. }
  unfold dispatch. rewrite E. repeat split.
Qed.

Lemma mobile_gate_rejects_locally_witness :
  (effects (Index.onSubmit Sample.good (Sample.idle Sample.no_name (Some 7)))
     = [World (AlertShown (js "Validation Error")
                 (js "Name and email are required") [])] /\
   invocations (effects (Index.onSubmit Sample.good
                           (Sample.idle Sample.no_name (Some 7)))) = [] /\
   fetches (effects (Index.onSubmit Sample.good
                       (Sample.idle Sample.no_name (Some 7)))) = [] /\
   enters_busy (effects (Index.onSubmit Sample.good
                           (Sample.idle Sample.no_name (Some 7)))) = false /\
   dispatch (Index.onSubmit Sample.good) (Sample.idle Sample.no_name (Some 7))
     = Sample.idle Sample.no_name (Some 7)) /\
  (exists rest : list ApiCall,
     invocations (effects (App.onSubmit Sample.good
                             (Sample.idle Sample.no_name (Some 7))))
       = submit_call (Sample.idle Sample.no_name (Some 7)) :: rest).
Proof.
  apply (mobile_gate_rejects_locally Sample.good
           (Sample.idle Sample.no_name (Some 7))).
  left. reflexivity.
Defined.

(* ================================================================== *)
(** * Mutations and the chained reload *)
(* ================================================================== *)

(** C4.  When the create, update or delete call resolves, the handler
    calls [getUsers] next, inside the same [try] block, and nothing
    else of the client.  If the reload resolves the cache is the list it
    returned.  If the reload rejects, the cache is the one from before
    the operation and the Error slot holds the reload's message.  In
    both cases the resets made after the mutation stay: the Draft is
    empty after a create, the Draft is empty and the EditTarget null
    after an update.  On the mobile client the mutation is only
    attempted for a draft that passes the gate, and a delete once it is
    confirmed. *)
Theorem mutation_chains_reload (userApi : UserApi) (c : State) :
  (forall u : User,
   settled (createUser userApi (formData c)) = Resolved u ->
   (invocations (effects (App.handleCreate userApi c))
      = [CallCreateUser (formData c); CallGetUsers] /\
    formData (dispatch (App.handleCreate userApi) c)
      = UserCreate.mk (js "") (js "") /\
    reload_result userApi c (dispatch (App.handleCreate userApi) c)) /\
   (draft_rejected (formData c) = false ->
    invocations (effects (Index.handleCreate userApi c))
      = [CallCreateUser (formData c); CallGetUsers] /\
    formData (dispatch (Index.handleCreate userApi) c)
      = UserCreate.mk (js "") (js "") /\
    reload_result userApi c (dispatch (Index.handleCreate userApi) c))) /\
  (forall (id : Z) (u : User),
   editingId c = Some id -> truthy (Some id) = true ->
   settled (updateUser userApi id (formData c)) = Resolved u ->
   (invocations (effects (App.handleUpdate userApi c))
      = [CallUpdateUser id (formData c); CallGetUsers] /\
    editingId (dispatch (App.handleUpdate userApi) c) = None /\
    formData (dispatch (App.handleUpdate userApi) c)
      = UserCreate.mk (js "") (js "") /\
    reload_result userApi c (dispatch (App.handleUpdate userApi) c)) /\
   (draft_rejected (formData c) = false ->
    invocations (effects (Index.handleUpdate userApi c))
      = [CallUpdateUser id (formData c); CallGetUsers] /\
    editingId (dispatch (Index.handleUpdate userApi) c) = None /\
    formData (dispatch (Index.handleUpdate userApi) c)
      = UserCreate.mk (js "") (js "") /\
    reload_result userApi c (dispatch (Index.handleUpdate userApi) c))) /\
  (forall id : Z,
   settled (deleteUser userApi id) = Resolved tt ->
   (invocations (effects (App.handleDelete userApi id c))
      = [CallDeleteUser id; CallGetUsers] /\
    reload_result userApi c (dispatch (App.handleDelete userApi id) c)) /\
   (invocations (effects (Index.handleDelete userApi PressDelete id c))
      = [CallDeleteUser id; CallGetUsers] /\
    reload_result userApi c
      (dispatch (Index.handleDelete userApi PressDelete id) c))).
Proof.
  unfold reload_result, draft_rejected. split; [|split].
  - intros u Hreq. run_handler. split; [|intros ->];
      destruct (createUser userApi (formData c)) as [t [u'|e]];
      cbn in Hreq; try discriminate;
      destruct (getUsers userApi) as [t' [data|[message|]]];
      calls_trace; commit_trace; repeat split; reflexivity.
  - intros id u Hid Htruthy Hreq. apply truthy_Some in Htruthy.
    run_handler. rewrite Hid, Htruthy. split; [|intros ->];
      destruct (updateUser userApi id (formData c)) as [t [u'|e]];
      cbn in Hreq; try discriminate;
      destruct (getUsers userApi) as [t' [data|[message|]]];
      calls_trace; commit_trace; repeat split; reflexivity.
  - intros id Hreq. run_handler. split;
      destruct (deleteUser userApi id) as [t [u'|e]];
      cbn in Hreq; try discriminate;
      destruct (getUsers userApi) as [t' [data|[message|]]];
      calls_trace; commit_trace; repeat split; reflexivity.
Qed.

Lemma mutation_chains_reload_witness :
  (invocations (effects (App.handleCreate Sample.reload_down Sample.editing))
     = [CallCreateUser Sample.ada_draft; CallGetUsers] /\
   formData (dispatch (App.handleCreate Sample.reload_down) Sample.editing) = UserCreate.mk (js "") (js "") /\
   users (dispatch (App.handleCreate Sample.reload_down) Sample.editing) = [Sample.bob] /\
   error (dispatch (App.handleCreate Sample.reload_down) Sample.editing)
     = Some (js "Network request failed")) /\
  (invocations (effects (Index.handleCreate Sample.reload_down Sample.editing))
     = [CallCreateUser Sample.ada_draft; CallGetUsers] /\
   formData (dispatch (Index.handleCreate Sample.reload_down) Sample.editing) = UserCreate.mk (js "") (js "") /\
   users (dispatch (Index.handleCreate Sample.reload_down) Sample.editing) = [Sample.bob] /\
   error (dispatch (Index.handleCreate Sample.reload_down) Sample.editing)
     = Some (js "Network request failed")) /\
  (invocations (effects (App.handleUpdate Sample.reload_down Sample.editing))
     = [CallUpdateUser 7 Sample.ada_draft; CallGetUsers] /\
   editingId (dispatch (App.handleUpdate Sample.reload_down) Sample.editing) = None /\
   formData (dispatch (App.handleUpdate Sample.reload_down) Sample.editing) = UserCreate.mk (js "") (js "") /\
   users (dispatch (App.handleUpdate Sample.reload_down) Sample.editing) = [Sample.bob] /\
   error (dispatch (App.handleUpdate Sample.reload_down) Sample.editing)
     = Some (js "Network request failed")) /\
  (invocations (effects (Index.handleUpdate Sample.reload_down Sample.editing))
     = [CallUpdateUser 7 Sample.ada_draft; CallGetUsers] /\
   editingId (dispatch (Index.handleUpdate Sample.reload_down) Sample.editing) = None /\
   formData (dispatch (Index.handleUpdate Sample.reload_down) Sample.editing) = UserCreate.mk (js "") (js "") /\
   users (dispatch (Index.handleUpdate Sample.reload_down) Sample.editing) = [Sample.bob] /\
   error (dispatch (Index.handleUpdate Sample.reload_down) Sample.editing)
     = Some (js "Network request failed")) /\
  (invocations (effects (App.handleDelete Sample.reload_down 7 Sample.editing))
     = [CallDeleteUser 7; CallGetUsers] /\
   users (dispatch (App.handleDelete Sample.reload_down 7) Sample.editing) = [Sample.bob] /\
   error (dispatch (App.handleDelete Sample.reload_down 7) Sample.editing)
     = Some (js "Network request failed")) /\
  (invocations (effects (Index.handleDelete Sample.reload_down PressDelete 7 Sample.editing))
     = [CallDeleteUser 7; CallGetUsers] /\
   users (dispatch (Index.handleDelete Sample.reload_down PressDelete 7) Sample.editing) = [Sample.bob] /\
   error (dispatch (Index.handleDelete Sample.reload_down PressDelete 7) Sample.editing)
     = Some (js "Network request failed")).
Proof.
  destruct (mutation_chains_reload Sample.reload_down Sample.editing)
    as [Hcreate [Hupdate Hdelete]].
  destruct (Hcreate Sample.ada eq_refl) as [Hc1 Hc2].
  destruct (Hupdate 7 Sample.ada eq_refl eq_refl eq_refl) as [Hu1 Hu2].
  destruct (Hdelete 7 eq_refl) as [Hd1 Hd2].
  split; [exact Hc1|]. split; [exact (Hc2 eq_refl)|].
  split; [exact Hu1|]. split; [exact (Hu2 eq_refl)|].
  split; [exact Hd1|exact Hd2].
Defined.

(* ================================================================== *)
(** * Single flight *)
(* ================================================================== *)

(** C2, the claim as stated fails.  With the Busy flag on, App.tsx's
    [handleDelete] sends its requests and replaces the cache. *)
Lemma busy_call_counterexample :
  loading (Sample.busy Sample.ada_draft None) = true /\
  fetches (effects (App.handleDelete (FrontendApi.userApi Sample.base Sample.up) 7
                      (Sample.busy Sample.ada_draft None))) <> [] /\
  dispatch (App.handleDelete (FrontendApi.userApi Sample.base Sample.up) 7)
    (Sample.busy Sample.ada_draft None) <> Sample.busy Sample.ada_draft None.
Proof. repeat split; vm_compute; discriminate. Qed.

(** C2, amended.  No handler reads the Busy flag: for every intent, the
    handler of App.tsx and the handler of index.tsx do the same with the
    flag on as with the flag off.  What stops a second operation is the
    rendering: with the flag on, the submit, cancel, edit and delete
    controls are disabled and a press reaches no handler; the load on
    mount is behind no control. *)
Theorem busy_is_gated_by_controls
    (userApi : UserApi) (choice : DialogChoice) (i : Intent) (c : State)
    (b : bool) :
  App.on userApi i (update c (SetLoading b)) = App.on userApi i c /\
  Index.on userApi choice i (update c (SetLoading b)) = Index.on userApi choice i c /\
  App.press userApi i (update c (SetLoading true))
    = match i with Load => App.loadUsers userApi c | _ => ret tt end /\
  Index.press userApi choice i (update c (SetLoading true))
    = match i with Load => Index.loadUsers userApi c | _ => ret tt end.
Proof. destruct i; repeat split. Qed.

(* ================================================================== *)
(** * The two front ends *)
(* ================================================================== *)

(** On a step that passes, the handler of index.tsx queues updates that
    commit to the state the handler of App.tsx commits to. *)
Lemma step_agrees (st : Step) (s : State) :
  passes st s = true ->
  dispatch (App.on (api st) (intent st)) s
  = dispatch (Index.on (api st) (choice st) (intent st)) s.
Proof.
  destruct st as [i userApi ch]. unfold passes. cbn [intent api choice].
  unfold dispatch, effects.
  destruct i as [| | |user|id]; intros Hpass.
  - cbn [App.on Index.on]. run_handler. split_calls; commit_trace; reflexivity.
  - cbn [App.on Index.on]. unfold App.onSubmit, Index.onSubmit.
    apply negb_true_iff in Hpass. unfold draft_rejected in Hpass.
    run_handler. rewrite Hpass.
    destruct (editingId s) as [id|]; cbn [truthy];
      [destruct (negb (id =? 0)); cbn [negb]|];
      split_calls; commit_trace; reflexivity.
  - reflexivity.
  - reflexivity.
  - destruct ch; [discriminate|].
    cbn [App.on Index.on]. run_handler. split_calls; commit_trace; reflexivity.
Qed.

(** Where index.tsx stops short of App.tsx: a submit whose draft its
    gate rejects, and a delete cancelled in its dialog. *)
Lemma Index_stops_short (userApi : UserApi) (id : Z) (c : State) :
  (draft_rejected (formData c) = true ->
   invocations (effects (Index.onSubmit userApi c)) = [] /\
   dispatch (Index.onSubmit userApi) c = c) /\
  (effects (Index.handleDelete userApi PressCancel id c)
     = [World (AlertShown (js "Delete User")
                 (js "Are you sure you want to delete this user?")
                 [js "Cancel"; js "Delete"])] /\
   dispatch (Index.handleDelete userApi PressCancel id) c = c).
Proof.
  split; [|split; reflexivity].
  unfold draft_rejected. intros Hgate.
  unfold Index.onSubmit, dispatch. run_handler. rewrite Hgate.
  destruct (editingId c) as [id'|]; cbn [truthy]; [|split; reflexivity].
  destruct (negb (id' =? 0)); cbn [negb]; split; reflexivity.
Qed.

Lemma App_handleDelete_calls_client (userApi : UserApi) (id : Z) (c : State) :
  exists rest : list ApiCall,
    invocations (effects (App.handleDelete userApi id c)) = CallDeleteUser id :: rest.
Proof.
  run_handler. split_calls; calls_trace; eexists; reflexivity.
Qed.

(** C3, the claim as stated fails, in two ways.  One submit of the
    draft [{name: "", email: "x@x.com"}], answered by a client whose
    calls succeed: App.tsx creates the user and reloads, index.tsx
    changes nothing.  One delete that the user cancels in the dialog of
    index.tsx: App.tsx, which has no dialog, deletes and reloads,
    index.tsx changes nothing. *)
Lemma App_Index_differ_counterexample :
  run_App Sample.one_submit (Sample.idle Sample.no_name None)
    <> run_Index Sample.one_submit (Sample.idle Sample.no_name None) /\
  run_App Sample.one_cancelled_delete (Sample.idle Sample.ada_draft None)
    <> run_Index Sample.one_cancelled_delete (Sample.idle Sample.ada_draft None).
Proof. split; vm_compute; discriminate. Qed.

(** C3, amended.  Along every run of intents and Resource Client
    outcomes in which each submit finds a Draft whose name and email are
    non-empty once trimmed, and each delete is confirmed in the mobile
    dialog, App.tsx and index.tsx go through the same states.  The two
    restrictions are where index.tsx stops and App.tsx does not: on a
    Draft its gate rejects, the submit of index.tsx calls nothing and
    changes no state while the submit of App.tsx calls the client; on a
    delete cancelled in the dialog, index.tsx only shows the dialog and
    changes no state while the delete of App.tsx calls [deleteUser]. *)
Theorem App_Index_agree (steps : list Step) (s : State) :
  (all_pass steps s = true -> run_App steps s = run_Index steps s) /\
  (forall (userApi : UserApi) (c : State),
   draft_rejected (formData c) = true ->
   invocations (effects (Index.onSubmit userApi c)) = [] /\
   dispatch (Index.onSubmit userApi) c = c /\
   exists rest : list ApiCall,
     invocations (effects (App.onSubmit userApi c)) = submit_call c :: rest) /\
  (forall (userApi : UserApi) (id : Z) (c : State),
   effects (Index.handleDelete userApi PressCancel id c)
     = [World (AlertShown (js "Delete User")
                 (js "Are you sure you want to delete this user?")
                 [js "Cancel"; js "Delete"])] /\
   dispatch (Index.handleDelete userApi PressCancel id) c = c /\
   exists rest : list ApiCall,
     invocations (effects (App.handleDelete userApi id c))
       = CallDeleteUser id :: rest).
Proof.
  split; [|split].
  - revert s. induction steps as [|st rest IH]; intros s Hall; [reflexivity|].
    cbn [all_pass] in Hall. apply andb_true_iff in Hall as [Hst Hrest].
    cbn [run_App run_Index].
    rewrite <- (step_agrees st s Hst). apply IH. exact Hrest.
  - intros userApi c Hgate.
    destruct (proj1 (Index_stops_short userApi 0 c) Hgate) as [Hcalls Hstate].
    split; [exact Hcalls|]. split; [exact Hstate|].
    apply App_onSubmit_calls_client.
  - intros userApi id c.
    destruct (proj2 (Index_stops_short userApi id c)) as [Hdialog Hstate].
    split; [exact Hdialog|]. split; [exact Hstate|].
    apply App_handleDelete_calls_client.
Qed.

Lemma App_Index_agree_witness :
  run_App Sample.session (Sample.idle Sample.ada_draft None)
    = run_Index Sample.session (Sample.idle Sample.ada_draft None) /\
  (invocations (effects (Index.onSubmit Sample.good
                           (Sample.idle Sample.no_name (Some 7)))) = [] /\
   dispatch (Index.onSubmit Sample.good) (Sample.idle Sample.no_name (Some 7))
     = Sample.idle Sample.no_name (Some 7) /\
   exists rest : list ApiCall,
     invocations (effects (App.onSubmit Sample.good
                             (Sample.idle Sample.no_name (Some 7))))
       = CallUpdateUser 7 Sample.no_name :: rest).
Proof.
  destruct (App_Index_agree Sample.session (Sample.idle Sample.ada_draft None))
    as [Hruns [Hgate _]].
  split.
  - apply Hruns. vm_compute. reflexivity.
  - apply (Hgate Sample.good (Sample.idle Sample.no_name (Some 7))).
    reflexivity.
Defined.

(* ================================================================== *)
(** * The Resource Clients *)
(* ================================================================== *)

(** Each function of either client sends exactly one request, whatever
    the network answers. *)
Lemma clients_send_one_request
    (base : jsstring) (net : Network) (id : Z) (user : UserCreate) :
  (List.length (sent (effects (FrontendApi.getUsers base net))) = 1 /\
   List.length (sent (effects (FrontendApi.getUser base net id))) = 1 /\
   List.length (sent (effects (FrontendApi.createUser base net user))) = 1 /\
   List.length (sent (effects (FrontendApi.updateUser base net id user))) = 1 /\
   List.length (sent (effects (FrontendApi.deleteUser base net id))) = 1)%nat /\
  (List.length (sent (effects (MobileApi.getUsers base net))) = 1 /\
   List.length (sent (effects (MobileApi.getUser base net id))) = 1 /\
   List.length (sent (effects (MobileApi.createUser base net user))) = 1 /\
   List.length (sent (effects (MobileApi.updateUser base net id user))) = 1 /\
   List.length (sent (effects (MobileApi.deleteUser base net id))) = 1)%nat.
Proof.
  unfold FrontendApi.getUsers, FrontendApi.getUser, FrontendApi.createUser,
    FrontendApi.updateUser, FrontendApi.deleteUser,
    MobileApi.getUsers, MobileApi.getUser, MobileApi.createUser,
    MobileApi.updateUser, MobileApi.deleteUser, fetch, res_json, effects.
  repeat split;
    match goal with
    | |- context [fetch_users net ?r] => destruct (fetch_users net r) as [res|e]
    | |- context [fetch_user net ?r] => destruct (fetch_user net r) as [res|e]
    | |- context [fetch_void net ?r] => destruct (fetch_void net r) as [res|e]
    end; cbn; try reflexivity;
    try (destruct (json res); cbn);
    destruct (ok res); reflexivity.
Qed.

(** Answered with a status outside 200-299, every function but the web
    [createUser] rejects with its own message and has not read the
    body. *)
Lemma refused_without_reading
    (base : jsstring) (st : Z) (us : Outcome (list User)) (u : Outcome User)
    (id : Z) (user : UserCreate) :
  (200 <=? st) && (st <=? 299) = false ->
  (fails_unread (FrontendApi.getUsers base (answering st us u))
     (js "Failed to fetch users") /\
   fails_unread (FrontendApi.getUser base (answering st us u) id)
     (js "Failed to fetch user") /\
   fails_unread (FrontendApi.updateUser base (answering st us u) id user)
     (js "Failed to update user") /\
   fails_unread (FrontendApi.deleteUser base (answering st us u) id)
     (js "Failed to delete user")) /\
  (fails_unread (MobileApi.getUsers base (answering st us u))
     (js "Failed to fetch users") /\
   fails_unread (MobileApi.getUser base (answering st us u) id)
     (js "Failed to fetch user") /\
   fails_unread (MobileApi.createUser base (answering st us u) user)
     (js "Failed to create user") /\
   fails_unread (MobileApi.updateUser base (answering st us u) id user)
     (js "Failed to update user") /\
   fails_unread (MobileApi.deleteUser base (answering st us u) id)
     (js "Failed to delete user")).
Proof.
  intros Hst.
  unfold fails_unread, FrontendApi.getUsers, FrontendApi.getUser,
    FrontendApi.updateUser, FrontendApi.deleteUser,
    MobileApi.getUsers, MobileApi.getUser, MobileApi.createUser,
    MobileApi.updateUser, MobileApi.deleteUser, fetch, res_json, effects,
    settled, answering, ok.
  cbn. rewrite Hst. cbn. repeat split.
Qed.

(** The web [createUser] reads the body before it looks at the status:
    answered with a status outside 200-299 it has read the body, and it
    rejects with whatever the read threw when the body is not JSON. *)
Lemma FrontendApi_createUser_reads_first
    (base : jsstring) (st : Z) (us : Outcome (list User)) (u : Outcome User)
    (user : UserCreate) :
  (200 <=? st) && (st <=? 299) = false ->
  reads_body (effects (FrontendApi.createUser base (answering st us u) user))
    = true /\
  settled (FrontendApi.createUser base (answering st us u) user)
    = match u with
      | Resolved _ => Rejected (ErrorObj (js "Failed to create user"))
      | Rejected err => Rejected err
      end.
Proof.
  intros Hst.
  unfold FrontendApi.createUser, fetch, res_json, effects, settled, answering, ok.
  destruct u as [data|err]; cbn; [rewrite Hst|]; split; reflexivity.
Qed.

(** C5, the code departs from the claim.  Answered 500 with a body
    that is not JSON, the web [createUser] sends its one request, reads
    the body, and rejects with the parse error; the mobile [createUser],
    on the same answer, rejects with "Failed to create user" and reads
    nothing. *)
Theorem FrontendApi_createUser_reads_failed_body :
  effects (FrontendApi.createUser Sample.base Sample.down Sample.ada_draft)
    = [ConsoleLog (js "4. api/users.ts createUser: Making fetch request");
       ConsoleLog (js "Steps 5 to 8 happen in the backend");
       Fetch Sample.post_ada;
       ReadJson] /\
  settled (FrontendApi.createUser Sample.base Sample.down Sample.ada_draft)
    = Rejected Sample.syntax_error /\
  fails_unread (MobileApi.createUser Sample.base Sample.down Sample.ada_draft)
    (js "Failed to create user").
Proof. repeat split. Qed.

(** On a backend that accepts, both clients build the same requests but
    for the address of the collection: the mobile one ends in a slash. *)
Example createUser_requests :
  sent (effects (FrontendApi.createUser Sample.base Sample.up Sample.ada_draft))
    = [Sample.post_ada] /\
  sent (effects (MobileApi.createUser Sample.base Sample.up Sample.ada_draft))
    = [mkRequest (js "http://localhost:8000/api/users/") POST
         [(js "Content-Type", js "application/json")] (Some Sample.ada_draft)] /\
  sent (effects (MobileApi.deleteUser Sample.base Sample.up 42))
    = [mkRequest (js "http://localhost:8000/api/users/42") DELETE [] None].
Proof. repeat split. Qed.

(** Through the web controller the parse error is what reaches the
    Error slot. *)
Lemma App_handleCreate_shows_parse_error :
  error (dispatch (App.handleCreate (FrontendApi.userApi Sample.base Sample.down))
           (Sample.idle Sample.ada_draft None))
  = Some (js "Unexpected token I in JSON at position 0").
Proof. reflexivity. Qed.

(* ================================================================== *)
(** * Invariants of the controllers *)
(* ================================================================== *)

(** Case analysis on everything a handler branches on: the EditTarget,
    the gate of the mobile client, the dialog, and how the client's
    calls settle. *)
Ltac controller_cases :=
  unfold App.on, Index.on, App.onSubmit, Index.onSubmit, App.onCancel,
    Index.onCancel in *;
  run_handler;
  repeat match goal with
    | |- context [match editingId ?c with _ => _ end] =>
        let id := fresh "id" in
        let E := fresh "Etarget" in
        destruct (editingId c) as [id|] eqn:E; cbn [truthy negb]
    | |- context [truthy (editingId ?c)] =>
        let id := fresh "id" in
        let E := fresh "Etarget" in
        destruct (editingId c) as [id|] eqn:E; cbn [truthy negb]
    | |- context [(?id =? 0)%Z] =>
        let E := fresh "Ezero" in
        destruct (id =? 0)%Z eqn:E; cbn [negb]
    | |- context [not_str ?a || not_str ?b] =>
        let E := fresh "Egate" in
        destruct (not_str a || not_str b) eqn:E
    | |- context [match ?ch with PressCancel => _ | PressDelete => _ end] =>
        destruct ch
    end;
  split_calls.

Lemma App_step_returns_to_idle (userApi : UserApi) (i : Intent) (c : State) :
  loading c = false -> loading (dispatch (App.on userApi i) c) = false.
Proof.
  intros Hidle. destruct i; unfold dispatch, effects; cbn [App.on];
    controller_cases; commit_trace; auto.
Qed.

Lemma Index_step_returns_to_idle
    (userApi : UserApi) (ch : DialogChoice) (i : Intent) (c : State) :
  loading c = false -> loading (dispatch (Index.on userApi ch i) c) = false.
Proof.
  intros Hidle. destruct i; unfold dispatch, effects; cbn [Index.on];
    controller_cases; commit_trace; auto.
Qed.

(** X1.  Started from an idle state, every run of intents, whatever the
    Resource Client answers at each step, ends idle: no handler of
    App.tsx or index.tsx leaves the Busy flag on. *)
Theorem runs_return_to_idle (steps : list Step) (s : State) :
  loading s = false ->
  loading (run_App steps s) = false /\ loading (run_Index steps s) = false.
Proof.
  revert s. induction steps as [|st rest IH]; intros s Hidle; [split; exact Hidle|].
  cbn [run_App run_Index]. split.
  - apply IH. apply App_step_returns_to_idle. exact Hidle.
  - apply IH. apply Index_step_returns_to_idle. exact Hidle.
Qed.

Lemma runs_return_to_idle_witness :
  loading (run_App Sample.session (Sample.idle Sample.ada_draft None)) = false /\
  loading (run_Index Sample.session (Sample.idle Sample.ada_draft None)) = false.
Proof.
  apply (runs_return_to_idle Sample.session (Sample.idle Sample.ada_draft None)).
  reflexivity.
Defined.

Lemma App_step_cache (userApi : UserApi) (i : Intent) (c : State) :
  users (dispatch (App.on userApi i) c) = users c \/
  settled (getUsers userApi) = Resolved (users (dispatch (App.on userApi i) c)).
Proof.
  destruct i; unfold dispatch, effects, settled; cbn [App.on];
    controller_cases; commit_trace; auto.
Qed.

Lemma Index_step_cache
    (userApi : UserApi) (ch : DialogChoice) (i : Intent) (c : State) :
  users (dispatch (Index.on userApi ch i) c) = users c \/
  settled (getUsers userApi)
    = Resolved (users (dispatch (Index.on userApi ch i) c)).
Proof.
  destruct i; unfold dispatch, effects, settled; cbn [Index.on];
    controller_cases; commit_trace; auto.
Qed.

(** X2.  The cache is never patched locally.  After any run of intents
    it is either the cache the run started with or, exactly, a list
    that [getUsers] returned during one of the steps. *)
Theorem cache_comes_from_getUsers (steps : list Step) (s : State) :
  (users (run_App steps s) = users s \/
   exists st : Step,
     In st steps /\
     settled (getUsers (api st)) = Resolved (users (run_App steps s))) /\
  (users (run_Index steps s) = users s \/
   exists st : Step,
     In st steps /\
     settled (getUsers (api st)) = Resolved (users (run_Index steps s))).
Proof.
  split.
  - revert s. induction steps as [|st rest IH]; intros s; [left; reflexivity|].
    cbn [run_App].
    destruct (IH (dispatch (App.on (api st) (intent st)) s)) as [Hsame | [st' [Hin Hst']]].
    + destruct (App_step_cache (api st) (intent st) s) as [Hkeep | Hload].
      * left. congruence.
      * right. exists st. split; [left; reflexivity|]. congruence.
    + right. exists st'. split; [right; exact Hin|exact Hst'].
  - revert s. induction steps as [|st rest IH]; intros s; [left; reflexivity|].
    cbn [run_Index].
    destruct (IH (dispatch (Index.on (api st) (choice st) (intent st)) s))
      as [Hsame | [st' [Hin Hst']]].
    + destruct (Index_step_cache (api st) (choice st) (intent st) s)
        as [Hkeep | Hload].
      * left. congruence.
      * right. exists st. split; [left; reflexivity|]. congruence.
    + right. exists st'. split; [right; exact Hin|exact Hst'].
Qed.

Lemma calls_while_busy_World (t : list Effect) (tr : list Event) :
  calls_while_busy true (map World t ++ tr) = calls_while_busy true tr.
Proof.
  induction t as [|e t IH]; [reflexivity|].
  cbn [map app calls_while_busy]. destruct e; cbn; exact IH.
Qed.

Lemma calls_while_busy_World_end (t : list Effect) :
  calls_while_busy true (map World t) = true.
Proof.
  rewrite <- (app_nil_r (map World t)). apply calls_while_busy_World.
Qed.

Ltac busy_trace :=
  cbn;
  repeat first [ rewrite <- app_assoc
               | rewrite calls_while_busy_World
               | rewrite calls_while_busy_World_end
               | progress cbn ].

(** X3.  Whatever value the Busy flag has when a handler starts, every
    call of the Resource Client a handler makes, and every request the
    client sends for it, happens after the handler has set the flag and
    before it clears it.  This holds for every intent in App.tsx and in
    index.tsx. *)
Theorem client_is_called_while_busy
    (userApi : UserApi) (ch : DialogChoice) (i : Intent) (c : State)
    (flag : bool) :
  calls_while_busy flag (effects (App.on userApi i c)) = true /\
  calls_while_busy flag (effects (Index.on userApi ch i c)) = true.
Proof.
  split.
  - destruct i; unfold effects; cbn [App.on];
      controller_cases; busy_trace; reflexivity.
  - destruct i; unfold effects; cbn [Index.on];
      controller_cases; busy_trace; reflexivity.
Qed.

(* ================================================================== *)
(** * Outcomes of an operation *)
(* ================================================================== *)



(** X5.  An operation that succeeds leaves no error behind, whatever
    the Error slot held before: after a load whose [getUsers] resolves,
    and after a create, update or delete that resolves and whose
    reload resolves, the Error slot is null. *)
Theorem success_clears_error
    (userApi : UserApi) (c : State) (data : list User) :
  settled (getUsers userApi) = Resolved data ->
  error (dispatch (App.loadUsers userApi) c) = None /\
  error (dispatch (Index.loadUsers userApi) c) = None /\
  (forall u : User,
   settled (createUser userApi (formData c)) = Resolved u ->
   error (dispatch (App.handleCreate userApi) c) = None /\
   (draft_rejected (formData c) = false ->
    error (dispatch (Index.handleCreate userApi) c) = None)) /\
  (forall (id : Z) (u : User),
   editingId c = Some id -> truthy (Some id) = true ->
   settled (updateUser userApi id (formData c)) = Resolved u ->
   error (dispatch (App.handleUpdate userApi) c) = None /\
   (draft_rejected (formData c) = false ->
    error (dispatch (Index.handleUpdate userApi) c) = None)) /\
  (forall id : Z,
   settled (deleteUser userApi id) = Resolved tt ->
   error (dispatch (App.handleDelete userApi id) c) = None /\
   error (dispatch (Index.handleDelete userApi PressDelete id) c) = None).
Proof.
  intros Hload. unfold draft_rejected. run_handler.
  destruct (getUsers userApi) as [t' [data'|e']]; cbn in Hload; [|discriminate].
  split; [commit_trace; reflexivity|]. split; [commit_trace; reflexivity|].
  split; [|split].
  - intros u Hreq. split; [|intros ->];
      destruct (createUser userApi (formData c)) as [t [u'|e]];
      cbn in Hreq; try discriminate; commit_trace; reflexivity.
  - intros id u Hid Htruthy Hreq. apply truthy_Some in Htruthy.
    rewrite Hid, Htruthy. split; [|intros ->];
      destruct (updateUser userApi id (formData c)) as [t [u'|e]];
      cbn in Hreq; try discriminate; commit_trace; reflexivity.
  - intros id Hreq. split;
      destruct (deleteUser userApi id) as [t [u'|e]];
      cbn in Hreq; try discriminate; commit_trace; reflexivity.
Qed.

Lemma success_clears_error_witness :
  error (dispatch (App.loadUsers Sample.good) Scenario.after_failure) = None /\
  error (dispatch (Index.loadUsers Sample.good) Scenario.after_failure) = None /\
  error (dispatch (App.handleCreate Sample.good) Scenario.after_failure) = None /\
  error (dispatch (Index.handleCreate Sample.good) Scenario.after_failure) = None /\
  error (dispatch (App.handleUpdate Sample.good) Scenario.after_failure) = None /\
  error (dispatch (Index.handleUpdate Sample.good) Scenario.after_failure) = None /\
  error (dispatch (App.handleDelete Sample.good 7) Scenario.after_failure) = None /\
  error (dispatch (Index.handleDelete Sample.good PressDelete 7)
           Scenario.after_failure) = None.
Proof.
  destruct (success_clears_error Sample.good Scenario.after_failure
              [Sample.ada; Sample.bob] eq_refl)
    as [Hweb [Hmobile [Hcreate [Hupdate Hdelete]]]].
  destruct (Hcreate Sample.ada eq_refl) as [Hc1 Hc2].
  destruct (Hupdate 7 Sample.ada eq_refl eq_refl eq_refl) as [Hu1 Hu2].
  destruct (Hdelete 7 eq_refl) as [Hd1 Hd2].
  exact (conj Hweb (conj Hmobile (conj Hc1 (conj (Hc2 eq_refl)
           (conj Hu1 (conj (Hu2 eq_refl) (conj Hd1 Hd2))))))).
Defined.

(** X6.  Reloading twice is reloading once: with the same answer from
    [getUsers], a second load leaves the state the first load left, be
    the answer a list or a failure. *)
Theorem reload_is_idempotent (userApi : UserApi) (c : State) :
  dispatch (App.loadUsers userApi) (dispatch (App.loadUsers userApi) c)
    = dispatch (App.loadUsers userApi) c /\
  dispatch (Index.loadUsers userApi) (dispatch (Index.loadUsers userApi) c)
    = dispatch (Index.loadUsers userApi) c.
Proof.
  run_handler. split_calls; commit_trace; split; reflexivity.
Qed.

(* ================================================================== *)
(** * The rendered screen *)
(* ================================================================== *)

Lemma map_index_nth {A B} (f : A -> nat -> B) (l : list A) (start k : nat) :
  nth_error (map_index f l start) k
  = option_map (fun a => f a (start + k)%nat) (nth_error l k).
Proof.
  revert start k. induction l as [|a l IH]; intros start k.
  - destruct k; reflexivity.
  - destruct k as [|k]; cbn.
    + rewrite Nat.add_0_r. reflexivity.
    + rewrite IH. rewrite Nat.add_succ_r. reflexivity.
Qed.

Lemma map_index_map {A B C} (f : A -> nat -> B) (g : B -> C) (h : A -> C)
    (l : list A) (start : nat) :
  (forall a n, g (f a n) = h a) ->
  map g (map_index f l start) = map h l.
Proof.
  intros Hgf. revert start. induction l as [|a l IH]; intros start; cbn;
    [reflexivity|]. rewrite Hgf, IH. reflexivity.
Qed.

(** X7.  The list shows the cache and nothing else: one row per cached
    record, in the cache's order, each showing that record's id, name
    and email; with an empty cache it shows the text "No users yet.
    Create one above!" and no row.  This holds on both screens. *)
Theorem list_mirrors_cache
    (userApi : UserApi) (ch : DialogChoice) (c : State) :
  let web := list_view (Frontend.render userApi c) in
  let mobile := list_view (Mobile.render userApi ch c) in
  map (fun r => User.mk (key r) (shown_name r) (shown_email r)) (rows_of web)
    = users c /\
  map (fun r => User.mk (key r) (shown_name r) (shown_email r)) (rows_of mobile)
    = users c /\
  (users c = [] ->
   web = EmptyText (js "No users yet. Create one above!") /\
   mobile = EmptyText (js "No users yet. Create one above!")).
Proof.
  cbn. unfold Frontend.UserList, Mobile.UserList.
  destruct (users c) as [|u l] eqn:E.
  - repeat split.
  - cbn [List.length Nat.eqb rows_of]. split; [|split; [|discriminate]].
    + rewrite map_map. erewrite map_ext; [apply map_id|].
      intros []; reflexivity.
    + rewrite (map_index_map _ _ (fun a => a)).
      * apply map_id.
      * intros [] n; reflexivity.
Qed.

Lemma list_mirrors_cache_witness :
  list_view (Frontend.render Sample.good initial)
    = EmptyText (js "No users yet. Create one above!") /\
  list_view (Mobile.render Sample.good PressCancel initial)
    = EmptyText (js "No users yet. Create one above!").
Proof.
  exact (proj2 (proj2 (list_mirrors_cache Sample.good PressCancel initial))
           eq_refl).
Defined.

Lemma Frontend_rows (userApi : UserApi) (c : State) (k : nat) :
  nth_error (rows_of (list_view (Frontend.render userApi c))) k
  = option_map
      (fun user =>
         mkRow (User.id user) (User.name user) (User.email user) false
           (mkButton (Text (js "Edit")) (loading c) (App.startEdit user c))
           (mkButton (Text (js "Delete")) (loading c)
              (App.handleDelete userApi (User.id user) c)))
      (nth_error (users c) k).
Proof.
  cbn. unfold Frontend.UserList.
  destruct (users c) as [|u l]; [destruct k; reflexivity|].
  cbn [List.length Nat.eqb rows_of]. apply nth_error_map.
Qed.

Lemma Mobile_rows (userApi : UserApi) (ch : DialogChoice) (c : State) (k : nat) :
  nth_error (rows_of (list_view (Mobile.render userApi ch c))) k
  = option_map
      (fun user =>
         mkRow (User.id user) (User.name user) (User.email user) (0 <? k)%nat
           (mkButton (Text (js "Edit")) (loading c) (Index.startEdit user c))
           (mkButton (Text (js "Delete")) (loading c)
              (Index.handleDelete userApi ch (User.id user) c)))
      (nth_error (users c) k).
Proof.
  cbn. unfold Mobile.UserList.
  destruct (users c) as [|u l]; [destruct k; reflexivity|].
  cbn [List.length Nat.eqb rows_of]. rewrite map_index_nth. reflexivity.
Qed.

(** X8.  Pressing Edit on the k-th row of an idle screen puts exactly
    that record into the form: the EditTarget is its id, the Draft is
    its name and email, and the next render shows them in the two
    inputs; the cache, the Busy flag and the Error slot are untouched
    and no client call is made. *)
Theorem edit_fills_form
    (userApi : UserApi) (ch : DialogChoice) (c : State) (k : nat) (user : User) :
  loading c = false ->
  nth_error (users c) k = Some user ->
  let web := dispatch (Frontend.gesture userApi (TapEdit k)) c in
  let mobile := dispatch (Mobile.gesture userApi ch (TapEdit k)) c in
  web = mkState (users c) (UserCreate.mk (User.name user) (User.email user))
          (Some (User.id user)) false (error c) /\
  mobile = web /\
  value (name_input (form (Frontend.render userApi web))) = User.name user /\
  value (email_input (form (Frontend.render userApi web))) = User.email user /\
  value (name_input (form (Mobile.render userApi ch mobile))) = User.name user /\
  value (email_input (form (Mobile.render userApi ch mobile))) = User.email user /\
  invocations (effects (Frontend.gesture userApi (TapEdit k) c)) = [] /\
  invocations (effects (Mobile.gesture userApi ch (TapEdit k) c)) = [].
Proof.
  intros Hidle Hk.
  unfold Frontend.gesture, Mobile.gesture, perform, dispatch.
  rewrite Frontend_rows, Mobile_rows, Hk. cbn [option_map edit_button click
    button_disabled onPress]. rewrite Hidle. cbn.
  rewrite Hidle. repeat split.
Qed.

Lemma edit_fills_form_witness :
  dispatch (Frontend.gesture Sample.good (TapEdit 2)) Scenario.listing
    = mkState (users Scenario.listing) (UserCreate.mk (js "Bob") (js "b@x.com"))
        (Some 7) false None /\
  dispatch (Mobile.gesture Sample.good PressCancel (TapEdit 2)) Scenario.listing
    = dispatch (Frontend.gesture Sample.good (TapEdit 2)) Scenario.listing.
Proof.
  pose proof (edit_fills_form Sample.good PressCancel Scenario.listing 2
                Sample.bob eq_refl eq_refl) as H.
  exact (conj (proj1 H) (proj1 (proj2 H))).
Defined.

Lemma Index_onSubmit_calls_client (userApi : UserApi) (c : State) :
  draft_rejected (formData c) = false ->
  exists rest : list ApiCall,
    invocations (effects (Index.onSubmit userApi c)) = submit_call c :: rest.
Proof.
  unfold draft_rejected, Index.onSubmit, submit_call. intros Hgate.
  run_handler. rewrite Hgate.
  destruct (editingId c) as [id|]; cbn [truthy];
    [destruct (negb (id =? 0)); cbn [negb]|];
    split_calls; calls_trace; eexists; reflexivity.
Qed.

(** X9.  A record whose id is the number 0 cannot be edited.  After
    [startEdit] on it the form holds its name and email, but both
    screens show "Add User" and no Cancel button, the web submit button
    reads "Create", and a submit calls [createUser] with those fields
    (on the mobile client if they pass its gate): the record is
    duplicated, not updated. *)
Theorem record_zero_is_created_again
    (userApi : UserApi) (ch : DialogChoice) (c : State) (user : User) :
  User.id user = 0 ->
  let s' := dispatch (App.startEdit user) c in
  dispatch (Index.startEdit user) c = s' /\
  formData s' = UserCreate.mk (User.name user) (User.email user) /\
  heading (Frontend.render userApi s') = js "Add User" /\
  heading (Mobile.render userApi ch s') = js "Add User" /\
  content (submit_button (form (Frontend.render userApi s'))) = Text (js "Create") /\
  cancel_button (form (Frontend.render userApi s')) = None /\
  cancel_button (form (Mobile.render userApi ch s')) = None /\
  (exists rest : list ApiCall,
     invocations (effects (App.onSubmit userApi s'))
       = CallCreateUser (UserCreate.mk (User.name user) (User.email user)) :: rest) /\
  (draft_rejected (UserCreate.mk (User.name user) (User.email user)) = false ->
   exists rest : list ApiCall,
     invocations (effects (Index.onSubmit userApi s'))
       = CallCreateUser (UserCreate.mk (User.name user) (User.email user)) :: rest).
Proof.
  intros Hzero. cbn zeta.
  assert (Hcall : submit_call (dispatch (App.startEdit user) c)
                  = CallCreateUser (UserCreate.mk (User.name user) (User.email user))).
  { unfold submit_call. cbn. rewrite Hzero. reflexivity. }
  split; [reflexivity|]. split; [reflexivity|].
  split; [cbn; rewrite Hzero; reflexivity|].
  split; [cbn; rewrite Hzero; reflexivity|].
  split; [cbn; rewrite Hzero; reflexivity|].
  split; [cbn; rewrite Hzero; reflexivity|].
  split; [cbn; rewrite Hzero; reflexivity|].
  split.
  - rewrite <- Hcall. apply App_onSubmit_calls_client.
  - intros Hgate. rewrite <- Hcall. apply Index_onSubmit_calls_client.
    exact Hgate.
Qed.

Lemma record_zero_is_created_again_witness :
  heading (Frontend.render Sample.good
             (dispatch (App.startEdit Scenario.zero) Scenario.listing))
    = js "Add User" /\
  cancel_button (form (Mobile.render Sample.good PressCancel
                         (dispatch (App.startEdit Scenario.zero) Scenario.listing)))
    = None /\
  exists rest : list ApiCall,
    invocations (effects (Index.onSubmit Sample.good
                            (dispatch (App.startEdit Scenario.zero) Scenario.listing)))
      = CallCreateUser (UserCreate.mk (js "Root") (js "root@x.com")) :: rest.
Proof.
  pose proof (record_zero_is_created_again Sample.good PressCancel
                Scenario.listing Scenario.zero eq_refl) as H.
  cbn zeta in H.
  destruct H as [_ [_ [Hweb [_ [_ [_ [Hcancel [_ Hsubmit]]]]]]]].
  exact (conj Hweb (conj Hcancel (Hsubmit eq_refl))).
Defined.

(** X10.  Edit, then submit without typing, asks for the update of that
    very record with its own name and email.  For a record whose id is
    not 0, after [startEdit] both screens show "Edit User" with a Cancel
    button, and the first client call of a submit is
    [updateUser(id, {name, email})] (on the mobile client if the fields
    pass its gate). *)
Theorem edit_then_submit_updates
    (userApi : UserApi) (ch : DialogChoice) (c : State) (user : User) :
  User.id user <> 0 ->
  let s' := dispatch (App.startEdit user) c in
  dispatch (Index.startEdit user) c = s' /\
  heading (Frontend.render userApi s') = js "Edit User" /\
  heading (Mobile.render userApi ch s') = js "Edit User" /\
  option_map onPress (cancel_button (form (Frontend.render userApi s')))
    = Some (App.cancelEdit s') /\
  option_map onPress (cancel_button (form (Mobile.render userApi ch s')))
    = Some (Index.cancelEdit s') /\
  (exists rest : list ApiCall,
     invocations (effects (App.onSubmit userApi s'))
       = CallUpdateUser (User.id user)
           (UserCreate.mk (User.name user) (User.email user)) :: rest) /\
  (draft_rejected (UserCreate.mk (User.name user) (User.email user)) = false ->
   exists rest : list ApiCall,
     invocations (effects (Index.onSubmit userApi s'))
       = CallUpdateUser (User.id user)
           (UserCreate.mk (User.name user) (User.email user)) :: rest).
Proof.
  intros Hid. apply Z.eqb_neq in Hid. cbn zeta.
  assert (Hcall : submit_call (dispatch (App.startEdit user) c)
                  = CallUpdateUser (User.id user)
                      (UserCreate.mk (User.name user) (User.email user))).
  { unfold submit_call. cbn. rewrite Hid. reflexivity. }
  split; [reflexivity|].
  split; [cbn; rewrite Hid; reflexivity|].
  split; [cbn; rewrite Hid; reflexivity|].
  split; [cbn; unfold App.onCancel; cbn; rewrite !Hid; reflexivity|].
  split; [cbn; unfold Index.onCancel; cbn; rewrite !Hid; reflexivity|].
  split.
  - rewrite <- Hcall. apply App_onSubmit_calls_client.
  - intros Hgate. rewrite <- Hcall. apply Index_onSubmit_calls_client.
    exact Hgate.
Qed.

Lemma edit_then_submit_updates_witness :
  heading (Frontend.render Sample.good
             (dispatch (App.startEdit Sample.bob) Scenario.listing))
    = js "Edit User" /\
  exists rest : list ApiCall,
    invocations (effects (Index.onSubmit Sample.good
                            (dispatch (App.startEdit Sample.bob) Scenario.listing)))
      = CallUpdateUser 7 (UserCreate.mk (js "Bob") (js "b@x.com")) :: rest.
Proof.
  pose proof (edit_then_submit_updates Sample.good PressCancel
                Scenario.listing Sample.bob) as H.
  cbn zeta in H.
  destruct H as [_ [Hweb [_ [_ [_ [_ Hsubmit]]]]]]; [discriminate|].
  exact (conj Hweb (Hsubmit eq_refl)).
Defined.

(** X11.  The inputs are controlled by the Draft.  On an idle screen in
    create mode, typing a name and then an email (each keystroke seen by
    the next render) changes the Draft and nothing else.  On the mobile
    screen the Draft then holds both texts exactly as typed, in
    whichever order they were typed, and a press on the submit button
    sends that Draft to [createUser] untrimmed, provided neither text is
    blank.  On the web screen the Draft holds what the fields report:
    the name without line breaks, the e-mail without line breaks and
    without the white space around it. *)
Theorem typing_fills_draft
    (userApi : UserApi) (ch : DialogChoice) (c : State) (x y : jsstring) :
  loading c = false ->
  editingId c = None ->
  let typed := mkState (users c) (UserCreate.mk x y) None false (error c) in
  dispatch (Frontend.gesture userApi (EnterEmail y))
    (dispatch (Frontend.gesture userApi (EnterName x)) c)
    = mkState (users c)
        (UserCreate.mk (strip_line_breaks x)
           (strip_whitespace (strip_line_breaks y)))
        None false (error c) /\
  dispatch (Mobile.gesture userApi ch (EnterEmail y))
    (dispatch (Mobile.gesture userApi ch (EnterName x)) c) = typed /\
  dispatch (Mobile.gesture userApi ch (EnterName x))
    (dispatch (Mobile.gesture userApi ch (EnterEmail y)) c) = typed /\
  (draft_rejected (UserCreate.mk x y) = false ->
   exists rest : list ApiCall,
     invocations (effects (Mobile.gesture userApi ch TapSubmit typed))
       = CallCreateUser (UserCreate.mk x y) :: rest).
Proof.
  intros Hidle Hmode. cbn zeta.
  unfold Frontend.gesture, Mobile.gesture, dispatch. cbn.
  rewrite Hidle. cbn. rewrite Hidle, Hmode. cbn.
  split; [reflexivity|]. split; [reflexivity|]. split; [reflexivity|].
  intros Hgate.
  apply (Index_onSubmit_calls_client userApi
           (mkState (users c) (UserCreate.mk x y) None false (error c))).
  exact Hgate.
Qed.

Lemma typing_fills_draft_witness :
  dispatch (Frontend.gesture Sample.good (EnterEmail (js "grace@x.com ")))
    (dispatch (Frontend.gesture Sample.good (EnterName (js " Grace Hopper ")))
       Scenario.listing)
    = mkState (users Scenario.listing)
        (UserCreate.mk (js " Grace Hopper ") (js "grace@x.com")) None false None /\
  dispatch (Mobile.gesture Sample.good PressCancel (EnterEmail (js "grace@x.com ")))
    (dispatch (Mobile.gesture Sample.good PressCancel
                 (EnterName (js " Grace Hopper "))) Scenario.listing)
    = mkState (users Scenario.listing) Scenario.spaced None false None /\
  exists rest : list ApiCall,
    invocations (effects (Mobile.gesture Sample.good PressCancel TapSubmit
                   (mkState (users Scenario.listing) Scenario.spaced None false None)))
      = CallCreateUser Scenario.spaced :: rest.
Proof.
  pose proof (typing_fills_draft Sample.good PressCancel Scenario.listing
                (js " Grace Hopper ") (js "grace@x.com ") eq_refl eq_refl) as H.
  cbn zeta in H. destruct H as [Hweb [Hmobile [_ Hsubmit]]].
  exact (conj Hweb (conj Hmobile (Hsubmit eq_refl))).
Defined.

(** X12.  While the Busy flag is on, nothing on either screen responds:
    every gesture (typing into a field, submit, cancel, Edit or Delete
    on any row) performs no effect at all, so neither the Draft nor the
    EditTarget can change under an operation in flight. *)
Theorem busy_screen_is_inert
    (userApi : UserApi) (ch : DialogChoice) (g : Gesture) (c : State) :
  loading c = true ->
  Frontend.gesture userApi g c = ret tt /\
  Mobile.gesture userApi ch g c = ret tt.
Proof.
  intros Hbusy. unfold Frontend.gesture, Mobile.gesture, perform.
  destruct g as [x|y| | |k|k].
  - cbn. rewrite Hbusy. split; reflexivity.
  - cbn. rewrite Hbusy. split; reflexivity.
  - cbn. rewrite Hbusy. split; reflexivity.
  - cbn. unfold App.onCancel, Index.onCancel.
    destruct (truthy (editingId c)); cbn; rewrite ?Hbusy; split; reflexivity.
  - rewrite Frontend_rows, Mobile_rows.
    destruct (nth_error (users c) k); cbn; rewrite ?Hbusy; split; reflexivity.
  - rewrite Frontend_rows, Mobile_rows.
    destruct (nth_error (users c) k); cbn; rewrite ?Hbusy; split; reflexivity.
Qed.

Lemma busy_screen_is_inert_witness :
  Frontend.gesture Sample.good (TapDelete 0) (Sample.busy Sample.ada_draft (Some 7))
    = ret tt /\
  Mobile.gesture Sample.good PressDelete (TapDelete 0)
    (Sample.busy Sample.ada_draft (Some 7)) = ret tt.
Proof.
  apply (busy_screen_is_inert Sample.good PressDelete (TapDelete 0)
           (Sample.busy Sample.ada_draft (Some 7))).
  reflexivity.
Defined.

(* ================================================================== *)
(** * The Resource Clients, continued *)
(* ================================================================== *)

Ltac unfold_clients :=
  unfold FrontendApi.userApi, MobileApi.userApi,
    FrontendApi.getUsers, FrontendApi.getUser, FrontendApi.createUser,
    FrontendApi.updateUser, FrontendApi.deleteUser,
    MobileApi.getUsers, MobileApi.getUser, MobileApi.createUser,
    MobileApi.updateUser, MobileApi.deleteUser, fetch, res_json, ok in *.

(** X13.  Answered with a status in 200-299, every function of either
    client reads the body exactly once and settles as that read does: it
    resolves with the parsed value, and rejects with the read's own
    error when the body cannot be parsed.  [deleteUser] is the
    exception: it resolves without reading anything. *)
Theorem accepted_settles_as_body
    (base : jsstring) (st : Z) (us : Outcome (list User)) (u : Outcome User)
    (id : Z) (user : UserCreate) :
  (200 <=? st) && (st <=? 299) = true ->
  let net := answering st us u in
  (settled (FrontendApi.getUsers base net) = us /\
   settled (FrontendApi.getUser base net id) = u /\
   settled (FrontendApi.createUser base net user) = u /\
   settled (FrontendApi.updateUser base net id user) = u /\
   settled (FrontendApi.deleteUser base net id) = Resolved tt) /\
  (settled (MobileApi.getUsers base net) = us /\
   settled (MobileApi.getUser base net id) = u /\
   settled (MobileApi.createUser base net user) = u /\
   settled (MobileApi.updateUser base net id user) = u /\
   settled (MobileApi.deleteUser base net id) = Resolved tt) /\
  (filter reads_one (effects (FrontendApi.getUsers base net)) = [ReadJson] /\
   filter reads_one (effects (FrontendApi.getUser base net id)) = [ReadJson] /\
   filter reads_one (effects (FrontendApi.createUser base net user)) = [ReadJson] /\
   filter reads_one (effects (FrontendApi.updateUser base net id user))
     = [ReadJson] /\
   filter reads_one (effects (FrontendApi.deleteUser base net id)) = []) /\
  (filter reads_one (effects (MobileApi.getUsers base net)) = [ReadJson] /\
   filter reads_one (effects (MobileApi.getUser base net id)) = [ReadJson] /\
   filter reads_one (effects (MobileApi.createUser base net user)) = [ReadJson] /\
   filter reads_one (effects (MobileApi.updateUser base net id user))
     = [ReadJson] /\
   filter reads_one (effects (MobileApi.deleteUser base net id)) = []).
Proof.
  intros Hst. cbn zeta. unfold_clients. unfold settled, effects, answering.
  cbn. rewrite Hst. cbn.
  destruct us as [l|e], u as [x|e']; cbn; repeat split.
Qed.

Lemma accepted_settles_as_body_witness :
  settled (FrontendApi.createUser Sample.base
             (answering 201 (Resolved []) (Resolved Sample.ada)) Sample.ada_draft)
    = Resolved Sample.ada /\
  settled (MobileApi.getUsers Sample.base
             (answering 201 (Resolved []) (Resolved Sample.ada)))
    = Resolved [] /\
  filter reads_one
    (effects (FrontendApi.updateUser Sample.base
                (answering 201 (Resolved []) (Resolved Sample.ada)) 7
                Sample.ada_draft))
    = [ReadJson] /\
  filter reads_one
    (effects (MobileApi.getUser Sample.base
                (answering 201 (Resolved []) (Resolved Sample.ada)) 7))
    = [ReadJson].
Proof.
  pose proof (accepted_settles_as_body Sample.base 201 (Resolved [])
                (Resolved Sample.ada) 7 Sample.ada_draft eq_refl) as H.
  cbn zeta in H.
  destruct H as [[_ [_ [Hcreate _]]] [[Hlist _] [[_ [_ [_ [Hupdate _]]]] [_ [Hget _]]]]].
  exact (conj Hcreate (conj Hlist (conj Hupdate Hget))).
Defined.

(** X14.  When the backend cannot be reached ([fetch] itself rejects),
    the rejection passes through the client unchanged and its message is
    what the Error slot shows; the handler's own fallback text appears
    only when the thrown value is not an Error.  One request is sent, no
    reload follows, and the cache is kept. *)
Theorem unreachable_backend_message
    (base : jsstring) (err : Thrown) (c : State) (id : Z) :
  let web := FrontendApi.userApi base (unreachable err) in
  let mobile := MobileApi.userApi base (unreachable err) in
  fails_showing (App.loadUsers web) c
    (message_or err (js "Failed to load users")) /\
  fails_showing (Index.loadUsers mobile) c
    (message_or err (js "Failed to load users")) /\
  fails_showing (App.handleCreate web) c
    (message_or err (js "Failed to create user")) /\
  fails_showing (App.handleDelete web id) c
    (message_or err (js "Failed to delete user")) /\
  fails_showing (Index.handleDelete mobile PressDelete id) c
    (message_or err (js "Failed to delete user")) /\
  (truthy (editingId c) = true ->
   fails_showing (App.handleUpdate web) c
     (message_or err (js "Failed to update user"))) /\
  (truthy (editingId c) = true -> draft_rejected (formData c) = false ->
   fails_showing (Index.handleUpdate mobile) c
     (message_or err (js "Failed to update user"))) /\
  (draft_rejected (formData c) = false ->
   fails_showing (Index.handleCreate mobile) c
     (message_or err (js "Failed to create user"))).
Proof.
  cbn zeta. unfold fails_showing, draft_rejected.
  do 5 (split; [repeat split|]). split; [|split].
  - intros Hmode. run_handler.
    destruct (editingId c) as [id'|]; [|discriminate].
    rewrite (truthy_Some _ Hmode). repeat split.
  - intros Hmode Hgate. run_handler.
    destruct (editingId c) as [id'|]; [|discriminate].
    rewrite (truthy_Some _ Hmode), Hgate. repeat split.
  - intros Hgate. run_handler. rewrite Hgate. repeat split.
Qed.

Lemma unreachable_backend_message_witness :
  fails_showing (App.handleUpdate
                   (FrontendApi.userApi Sample.base (unreachable Sample.network_error)))
    Sample.editing (js "Network request failed") /\
  fails_showing (Index.handleUpdate
                   (MobileApi.userApi Sample.base (unreachable Sample.network_error)))
    Sample.editing (js "Network request failed") /\
  fails_showing (Index.handleCreate
                   (MobileApi.userApi Sample.base (unreachable Sample.network_error)))
    Sample.editing (js "Network request failed").
Proof.
  pose proof (unreachable_backend_message Sample.base Sample.network_error
                Sample.editing 7) as H.
  cbn zeta in H. destruct H as [_ [_ [_ [_ [_ [Hweb [Hmobile Hcreate]]]]]]].
  exact (conj (Hweb eq_refl) (conj (Hmobile eq_refl eq_refl) (Hcreate eq_refl))).
Defined.

(** X15.  When the backend answers with a status outside 200-299, the
    Error slot shows the client's text for the operation: "Failed to
    fetch users" for a load (not the handler's "Failed to load users"),
    "Failed to delete user", "Failed to update user", and on the mobile
    client "Failed to create user".  One request is sent, no reload
    follows, and the cache is kept. *)
Theorem refused_request_message
    (base : jsstring) (st : Z) (us : Outcome (list User)) (u : Outcome User)
    (c : State) (id : Z) :
  (200 <=? st) && (st <=? 299) = false ->
  let web := FrontendApi.userApi base (answering st us u) in
  let mobile := MobileApi.userApi base (answering st us u) in
  fails_showing (App.loadUsers web) c (js "Failed to fetch users") /\
  fails_showing (Index.loadUsers mobile) c (js "Failed to fetch users") /\
  fails_showing (App.handleDelete web id) c (js "Failed to delete user") /\
  fails_showing (Index.handleDelete mobile PressDelete id) c
    (js "Failed to delete user") /\
  (truthy (editingId c) = true ->
   fails_showing (App.handleUpdate web) c (js "Failed to update user")) /\
  (truthy (editingId c) = true -> draft_rejected (formData c) = false ->
   fails_showing (Index.handleUpdate mobile) c (js "Failed to update user")) /\
  (draft_rejected (formData c) = false ->
   fails_showing (Index.handleCreate mobile) c (js "Failed to create user")).
Proof.
  intros Hst. cbn zeta. unfold fails_showing, draft_rejected.
  do 4 (split; [unfold_clients; run_handler; unfold answering; cbn;
                rewrite ?Hst; cbn; repeat split|]).
  split; [|split].
  - intros Hmode. run_handler.
    destruct (editingId c) as [id'|]; [|discriminate].
    rewrite (truthy_Some _ Hmode).
    unfold_clients; unfold answering; cbn; rewrite ?Hst; cbn; repeat split.
  - intros Hmode Hgate. run_handler.
    destruct (editingId c) as [id'|]; [|discriminate].
    rewrite (truthy_Some _ Hmode), Hgate.
    unfold_clients; unfold answering; cbn; rewrite ?Hst; cbn; repeat split.
  - intros Hgate. run_handler. rewrite Hgate.
    unfold_clients; unfold answering; cbn; rewrite ?Hst; cbn; repeat split.
Qed.

Lemma refused_request_message_witness :
  fails_showing (App.loadUsers
                   (FrontendApi.userApi Sample.base
                      (answering 404 (Rejected NonError) (Rejected NonError))))
    Sample.editing (js "Failed to fetch users") /\
  fails_showing (App.handleUpdate
                   (FrontendApi.userApi Sample.base
                      (answering 404 (Rejected NonError) (Rejected NonError))))
    Sample.editing (js "Failed to update user") /\
  fails_showing (Index.handleUpdate
                   (MobileApi.userApi Sample.base
                      (answering 404 (Rejected NonError) (Rejected NonError))))
    Sample.editing (js "Failed to update user") /\
  fails_showing (Index.handleCreate
                   (MobileApi.userApi Sample.base
                      (answering 404 (Rejected NonError) (Rejected NonError))))
    Sample.editing (js "Failed to create user").
Proof.
  pose proof (refused_request_message Sample.base 404 (Rejected NonError)
                (Rejected NonError) Sample.editing 7 eq_refl) as H.
  cbn zeta in H. destruct H as [Hload [_ [_ [_ [Hweb [Hmobile Hcreate]]]]]].
  exact (conj Hload (conj (Hweb eq_refl)
           (conj (Hmobile eq_refl eq_refl) (Hcreate eq_refl)))).
Defined.

(** X16.  The two clients interpret an answer alike.  On the same
    answer (a status with its body, or an unreachable backend) each
    function of the web client settles exactly as its mobile twin, with
    one exception: [createUser] is only guaranteed to agree when the
    status is in 200-299 or the body can be parsed. *)
Theorem clients_agree
    (base base' : jsstring) (st : Z) (us : Outcome (list User))
    (u : Outcome User) (err : Thrown) (id : Z) (user : UserCreate) :
  (settled (FrontendApi.getUsers base (answering st us u))
     = settled (MobileApi.getUsers base' (answering st us u)) /\
   settled (FrontendApi.getUser base (answering st us u) id)
     = settled (MobileApi.getUser base' (answering st us u) id) /\
   settled (FrontendApi.updateUser base (answering st us u) id user)
     = settled (MobileApi.updateUser base' (answering st us u) id user) /\
   settled (FrontendApi.deleteUser base (answering st us u) id)
     = settled (MobileApi.deleteUser base' (answering st us u) id)) /\
  ((200 <=? st) && (st <=? 299) = true \/ (exists x : User, u = Resolved x) ->
   settled (FrontendApi.createUser base (answering st us u) user)
     = settled (MobileApi.createUser base' (answering st us u) user)) /\
  (settled (FrontendApi.getUsers base (unreachable err))
     = settled (MobileApi.getUsers base' (unreachable err)) /\
   settled (FrontendApi.getUser base (unreachable err) id)
     = settled (MobileApi.getUser base' (unreachable err) id) /\
   settled (FrontendApi.createUser base (unreachable err) user)
     = settled (MobileApi.createUser base' (unreachable err) user) /\
   settled (FrontendApi.updateUser base (unreachable err) id user)
     = settled (MobileApi.updateUser base' (unreachable err) id user) /\
   settled (FrontendApi.deleteUser base (unreachable err) id)
     = settled (MobileApi.deleteUser base' (unreachable err) id)).
Proof.
  unfold_clients. unfold settled, answering, unreachable. cbn.
  split; [|split].
  - destruct ((200 <=? st) && (st <=? 299)); cbn; repeat split.
  - intros [Hst | [x ->]].
    + rewrite Hst. cbn. destruct u; reflexivity.
    + destruct ((200 <=? st) && (st <=? 299)); reflexivity.
  - repeat split.
Qed.

Lemma clients_agree_witness :
  settled (FrontendApi.createUser Sample.base
             (answering 422 (Rejected NonError) (Resolved Sample.ada)) Sample.ada_draft)
  = settled (MobileApi.createUser Sample.base
               (answering 422 (Rejected NonError) (Resolved Sample.ada))
               Sample.ada_draft).
Proof.
  apply (clients_agree Sample.base Sample.base 422 (Rejected NonError)
           (Resolved Sample.ada) NonError 7 Sample.ada_draft).
  right. exists Sample.ada. reflexivity.
Defined.

From Stdlib Require DecimalPos DecimalZ.




(** Above the safe integers two identifiers can be printed alike, and
    from 10^21 on the exponent form is used. *)
Example number_toString_large :
  number_toString (2 ^ 53 + 1) = js "9007199254740992" /\
  number_toString (2 ^ 53) = js "9007199254740992" /\
  number_toString (10 ^ 21) = js "1e+21" /\
  number_toString (2 ^ 60) = js "1152921504606847000" /\
  number_toString (- (12345678901234567890123)) = js "-1.2345678901234568e+22".
Proof. vm_compute. repeat split. Qed.








(* ================================================================== *)
(** * Controllers over their clients *)
(* ================================================================== *)

Ltac split_net :=
  repeat match goal with
    | |- context [fetch_users ?n ?r] =>
        let st := fresh "st" in let b := fresh "b" in let e := fresh "e" in
        destruct (fetch_users n r) as [[st [b|e]]|e]
    | |- context [fetch_user ?n ?r] =>
        let st := fresh "st" in let b := fresh "b" in let e := fresh "e" in
        destruct (fetch_user n r) as [[st [b|e]]|e]
    | |- context [fetch_void ?n ?r] =>
        let st := fresh "st" in let b := fresh "b" in let e := fresh "e" in
        destruct (fetch_void n r) as [[st [b|e]]|e]
    | |- context [(200 <=? ?st) && (?st <=? 299)] =>
        destruct ((200 <=? st) && (st <=? 299))
    end.

(** Case analysis for a handler run over one of the two clients: every
    branch of the handler and every answer of the network. *)
Ltac wired_cases :=
  unfold App.on, Index.on, App.onSubmit, Index.onSubmit, App.onCancel,
    Index.onCancel in *;
  run_handler; unfold_clients;
  cbn [getUsers createUser updateUser deleteUser status json];
  repeat match goal with
    | |- context [match editingId ?c with _ => _ end] =>
        let id := fresh "id" in
        destruct (editingId c) as [id|]; cbn [truthy negb]
    | |- context [truthy (editingId ?c)] =>
        let id := fresh "id" in
        destruct (editingId c) as [id|]; cbn [truthy negb]
    | |- context [(?id =? 0)%Z] => destruct (id =? 0)%Z; cbn [negb]
    | |- context [not_str ?a || not_str ?b] => destruct (not_str a || not_str b)
    | |- context [match ?ch with PressCancel => _ | PressDelete => _ end] =>
        destruct ch
    end;
  repeat (progress split_net; cbn).

(** X18.  On the mobile client the alert and the Error slot never
    disagree.  For every intent and every answer of the network, each
    message the handler puts into the Error slot is also shown in an
    alert titled "Error", in the same order, and is the message the slot
    holds when the handler is done; the only other dialogs are the
    validation alert and the delete confirmation, at the start.  The web
    client opens no dialog at all. *)
Theorem mobile_alerts_match_error_slot
    (base : jsstring) (net : Network) (ch : DialogChoice) (i : Intent)
    (c : State) :
  (exists prefix : list (jsstring * jsstring),
     alerts (effects (Index.on (MobileApi.userApi base net) ch i c))
       = prefix ++
         map (pair (js "Error"))
           (errors_set (effects (Index.on (MobileApi.userApi base net) ch i c))) /\
     (prefix = [] \/ prefix = [validation_alert] \/ prefix = [confirm_dialog])) /\
  (forall m : jsstring,
     In m (errors_set (effects (Index.on (MobileApi.userApi base net) ch i c))) ->
     error (dispatch (Index.on (MobileApi.userApi base net) ch i) c) = Some m) /\
  alerts (effects (App.on (FrontendApi.userApi base net) i c)) = [].
Proof.
  split; [|split].
  - destruct i; unfold effects; cbn [Index.on]; wired_cases; cbn;
      first [ exists []; split; [reflexivity | left; reflexivity]
            | exists [validation_alert]; split;
                [reflexivity | right; left; reflexivity]
            | exists [confirm_dialog]; split;
                [reflexivity | right; right; reflexivity] ].
  - destruct i; unfold dispatch, effects; cbn [Index.on]; wired_cases; cbn;
      intros m Hm; repeat (destruct Hm as [<- | Hm]; [reflexivity|]);
      try contradiction.
  - destruct i; unfold effects; cbn [App.on]; wired_cases; reflexivity.
Qed.

Ltac use_reply H :=
  let st := fresh "st" in
  let content := fresh "content" in
  let Hst := fresh "Hst" in
  let Hreply := fresh "Hreply" in
  first [ destruct H as [st [content [Hst Hreply]]]
        | destruct H as [st [Hst Hreply]] ];
  unfold bare, carrying, item_url in Hreply; rewrite Hreply; cbn;
  rewrite ?Hst; cbn.

(** X19.  What a successful operation puts on the wire.  Whenever the
    backend answers the two requests of an operation with statuses in
    200-299 (201 to a POST, 200 to a GET, 204 to a DELETE, or any
    others) and bodies that can be read, a create sends a POST carrying
    the Draft to the collection and then a GET of the collection, an
    update a PUT carrying the Draft to the record and then the GET, a
    delete a bare DELETE to the record and then the GET, and nothing
    else; afterwards the cache is the list the GET returned, the Busy
    flag is off and the Error slot null.  The mobile client differs
    only in the trailing slash of the collection address. *)
Theorem successful_operation_on_the_wire
    (base : jsstring) (net : Network) (l : list User) (x : User) (c : State)
    (id : Z) :
  let web := FrontendApi.API_BASE base in
  let mobile := MobileApi.API_BASE base ++ js "/" in
  (accepted (fetch_user net) (carrying POST web (formData c)) x ->
   accepted (fetch_users net) (bare GET web) l ->
   fetches (effects (App.handleCreate (FrontendApi.userApi base net) c))
     = [carrying POST web (formData c); bare GET web] /\
   dispatch (App.handleCreate (FrontendApi.userApi base net)) c
     = mkState l (UserCreate.mk (js "") (js "")) (editingId c) false None) /\
  (accepted_unread (fetch_void net) (bare DELETE (item_url web id)) ->
   accepted (fetch_users net) (bare GET web) l ->
   fetches (effects (App.handleDelete (FrontendApi.userApi base net) id c))
     = [bare DELETE (item_url web id); bare GET web] /\
   dispatch (App.handleDelete (FrontendApi.userApi base net) id) c
     = mkState l (formData c) (editingId c) false None) /\
  (accepted_unread (fetch_void net)
     (bare DELETE (item_url (MobileApi.API_BASE base) id)) ->
   accepted (fetch_users net) (bare GET mobile) l ->
   fetches (effects (Index.handleDelete (MobileApi.userApi base net)
                       PressDelete id c))
     = [bare DELETE (item_url (MobileApi.API_BASE base) id); bare GET mobile] /\
   dispatch (Index.handleDelete (MobileApi.userApi base net) PressDelete id) c
     = mkState l (formData c) (editingId c) false None) /\
  (editingId c = Some id -> truthy (Some id) = true ->
   accepted (fetch_user net) (carrying PUT (item_url web id) (formData c)) x ->
   accepted (fetch_users net) (bare GET web) l ->
   fetches (effects (App.handleUpdate (FrontendApi.userApi base net) c))
     = [carrying PUT (item_url web id) (formData c); bare GET web] /\
   dispatch (App.handleUpdate (FrontendApi.userApi base net)) c
     = mkState l (UserCreate.mk (js "") (js "")) None false None) /\
  (editingId c = Some id -> truthy (Some id) = true ->
   draft_rejected (formData c) = false ->
   accepted (fetch_user net)
     (carrying PUT (item_url (MobileApi.API_BASE base) id) (formData c)) x ->
   accepted (fetch_users net) (bare GET mobile) l ->
   fetches (effects (Index.handleUpdate (MobileApi.userApi base net) c))
     = [carrying PUT (item_url (MobileApi.API_BASE base) id) (formData c);
        bare GET mobile] /\
   dispatch (Index.handleUpdate (MobileApi.userApi base net)) c
     = mkState l (UserCreate.mk (js "") (js "")) None false None) /\
  (draft_rejected (formData c) = false ->
   accepted (fetch_user net) (carrying POST mobile (formData c)) x ->
   accepted (fetch_users net) (bare GET mobile) l ->
   fetches (effects (Index.handleCreate (MobileApi.userApi base net) c))
     = [carrying POST mobile (formData c); bare GET mobile] /\
   dispatch (Index.handleCreate (MobileApi.userApi base net)) c
     = mkState l (UserCreate.mk (js "") (js "")) (editingId c) false None).
Proof.
  cbn zeta. unfold draft_rejected.
  split; [|split; [|split; [|split; [|split]]]].
  - intros Hfirst Hget. run_handler. unfold_clients.
    cbn [getUsers createUser updateUser deleteUser].
    use_reply Hfirst. use_reply Hget. split; reflexivity.
  - intros Hfirst Hget. run_handler. unfold_clients.
    cbn [getUsers createUser updateUser deleteUser].
    use_reply Hfirst. use_reply Hget. split; reflexivity.
  - intros Hfirst Hget. run_handler. unfold_clients.
    cbn [getUsers createUser updateUser deleteUser].
    use_reply Hfirst. use_reply Hget. split; reflexivity.
  - intros Hid Hmode Hfirst Hget. run_handler.
    rewrite Hid, (truthy_Some _ Hmode). unfold_clients.
    cbn [getUsers createUser updateUser deleteUser].
    use_reply Hfirst. use_reply Hget. split; reflexivity.
  - intros Hid Hmode Hgate Hfirst Hget. run_handler.
    rewrite Hid, (truthy_Some _ Hmode), Hgate. unfold_clients.
    cbn [getUsers createUser updateUser deleteUser].
    use_reply Hfirst. use_reply Hget. split; reflexivity.
  - intros Hgate Hfirst Hget. run_handler. rewrite Hgate. unfold_clients.
    cbn [getUsers createUser updateUser deleteUser].
    use_reply Hfirst. use_reply Hget. split; reflexivity.
Qed.

Lemma Sample_up_accepts (req : Request) :
  (exists st : Z,
     (200 <=? st) && (st <=? 299) = true /\
     fetch_user Sample.up req = Resolved (mkResponse st (Resolved Sample.ada))) /\
  accepted (fetch_users Sample.up) req [Sample.ada; Sample.bob] /\
  accepted_unread (fetch_void Sample.up) req.
Proof.
  split; [|split].
  - cbn. destruct (method req);
      [exists 200 | exists 201 | exists 200 | exists 200]; split; reflexivity.
  - exists 200. split; reflexivity.
  - exists 204, (Resolved tt). split; reflexivity.
Defined.

Lemma successful_operation_on_the_wire_witness :
  (fetches (effects (App.handleCreate (FrontendApi.userApi Sample.base Sample.up)
                       Sample.editing))
     = [carrying POST (js "http://localhost:8000/api/users") Sample.ada_draft;
        bare GET (js "http://localhost:8000/api/users")] /\
   dispatch (App.handleCreate (FrontendApi.userApi Sample.base Sample.up))
     Sample.editing
     = mkState [Sample.ada; Sample.bob] (UserCreate.mk (js "") (js "")) (Some 7)
         false None) /\
  (fetches (effects (Index.handleUpdate (MobileApi.userApi Sample.base Sample.up)
                       Sample.editing))
     = [carrying PUT (js "http://localhost:8000/api/users/7") Sample.ada_draft;
        bare GET (js "http://localhost:8000/api/users/")] /\
   dispatch (Index.handleUpdate (MobileApi.userApi Sample.base Sample.up))
     Sample.editing
     = mkState [Sample.ada; Sample.bob] (UserCreate.mk (js "") (js "")) None
         false None) /\
  (fetches (effects (App.handleDelete (FrontendApi.userApi Sample.base Sample.up) 7
                       Sample.editing))
     = [bare DELETE (js "http://localhost:8000/api/users/7");
        bare GET (js "http://localhost:8000/api/users")] /\
   dispatch (App.handleDelete (FrontendApi.userApi Sample.base Sample.up) 7)
     Sample.editing
     = mkState [Sample.ada; Sample.bob] Sample.ada_draft (Some 7) false None).
Proof.
  pose proof (successful_operation_on_the_wire Sample.base Sample.up
                [Sample.ada; Sample.bob] Sample.ada Sample.editing 7) as H.
  cbn zeta in H. destruct H as [Hcreate [Hdelete [_ [_ [Hupdate _]]]]].
  split; [|split].
  - apply Hcreate.
    + exact (proj1 (Sample_up_accepts _)).
    + exact (proj1 (proj2 (Sample_up_accepts _))).
  - apply Hupdate; try reflexivity.
    + exact (proj1 (Sample_up_accepts _)).
    + exact (proj1 (proj2 (Sample_up_accepts _))).
  - apply Hdelete.
    + exact (proj2 (proj2 (Sample_up_accepts _))).
    + exact (proj1 (proj2 (Sample_up_accepts _))).
Defined.
